(** * Online pulse-oximeter recording: a model of [ect/recording.py]

    The development embeds the [Oximeter] class of [ect/recording.py]:
    the frame check ([check]), the per-sample update ([add_paquet]) with its
    adaptive threshold, causal peak detection and instantaneous RR interval,
    and the device-driven loops ([setup], [readInWaiting]).

    Conventions of the embedding.
    - Python [int]s are [Z]; lists are [list]; a negative index reads from
      the end ([py_last], [py_last2]) and raises [IndexError] out of range.
    - The samples ([paquet]) and the [window] argument are taken in their
      integer case (the docstrings say [int]); [sfreq] is an [int].
    - numpy's float results are kept exact: a quotient of integers is a
      rational ([Q]) and [mean + std] is the algebraic number
      [m + sqrt v], stored as the pair of rationals [(m, v)]; [nan] (the mean
      of an empty slice) is a value of its own.  Comparisons with such a
      number are decided exactly, and [npfloat_R] gives its real value.
      The code holds the binary64 rounding of that number, which can lie
      just beside it: what is proved of a threshold is proved relative to
      the stored value, or on inputs where binary64 is exact (one or two
      samples in the window, a constant signal).
    - Exceptions are results ([Raise]); loops that wait for the device take
      fuel and end in [Unfinished] when it runs out. *)

From Stdlib Require Import String ZArith QArith Qreals Bool Lia List.
From Stdlib Require Import Reals Lra.
Import ListNotations.
Open Scope Z_scope.

(** ** Python and numpy primitives used by the class *)

Section PyList.
Context {A : Type}.

(** [len(l)] *)
Definition len (l : list A) : Z := Z.of_nat (length l).

(** [l[-1]] *)
Definition py_last (l : list A) : option A :=
  match rev l with
  | x :: _ => Some x
  | [] => None
  end.

(** [l[-2]] *)
Definition py_last2 (l : list A) : option A :=
  match rev l with
  | _ :: x :: _ => Some x
  | _ => None
  end.

(** [l[i]] for a non-negative index [i] *)
Definition py_index (l : list A) (i : nat) : option A := nth_error l i.

(** [l[start:]]: a negative start counts from the end, and both ends are
    clipped to the list. *)
Definition slice_from (start : Z) (l : list A) : list A :=
  let i := if start <? 0 then Z.max (len l + start) 0
           else Z.min start (len l) in
  skipn (Z.to_nat i) l.

(** [l[:stop]] for a non-negative [stop] *)
Definition slice_to (stop : nat) (l : list A) : list A := firstn stop l.

(** [l[-1] = v] *)
Definition set_last (v : A) (l : list A) : option (list A) :=
  match rev l with
  | _ :: r => Some (rev r ++ [v])
  | [] => None
  end.
End PyList.

(** [sum(l)] *)
Definition py_sum (l : list Z) : Z := fold_right Z.add 0 l.

(** [np.diff(l)]: the consecutive differences, one fewer than the values. *)
Fixpoint np_diff (l : list Z) : list Z :=
  match l with
  | a :: (b :: _) as tl => (b - a) :: np_diff tl
  | _ => []
  end.

(** [np.where(l)[0]]: the positions of the non-zero entries, counted from
    [i]. *)
Fixpoint np_where_from (i : Z) (l : list Z) : list Z :=
  match l with
  | [] => []
  | x :: tl =>
      if x =? 0 then np_where_from (i + 1) tl
      else i :: np_where_from (i + 1) tl
  end.

Definition np_where (l : list Z) : list Z := np_where_from 0 l.

(** ** The frame check *)

(** [Oximeter.check]: the five nested tests.  The elements are read by
    index once the length test has passed. *)
Definition check (paquet : list Z) : bool :=
  if len paquet >=? 5 then
    match py_index paquet 0, py_index paquet 1, py_index paquet 2,
          py_index paquet 3, py_index paquet 4 with
    | Some p0, Some p1, Some p2, Some p3, Some p4 =>
        if p0 =? 1 then
          if (p1 >=? 0) && (p1 <=? 255) then
            if (p2 >=? 0) && (p2 <=? 255) then
              if p3 <=? 127 then
                if p4 =? py_sum (slice_to 4 paquet) mod 256 then true
                else false
              else false
            else false
          else false
        else false
    | _, _, _, _, _ => false
    end
  else false.

(** ** numpy floats, kept exact *)

(** The value of a numpy expression: [nan], or the number [m + sqrt v]
    for rationals [m] and [v]. *)
Inductive npfloat : Type :=
| nan
| surd (m v : Q).

Definition Qsum (l : list Q) : Q := fold_right Qplus 0%Q l.

(** [np.mean(l)]: the sum over the count; [nan] (here [None]) on an empty
    slice. *)
Definition np_mean (l : list Z) : option Q :=
  match l with
  | [] => None
  | _ :: _ => Some (inject_Z (py_sum l) / inject_Z (len l))%Q
  end.

(** The square of [np.std(l)], which numpy computes as
    [mean(abs(l - mean(l))**2)] before taking the root. *)
Definition np_var (l : list Z) : option Q :=
  match np_mean l with
  | None => None
  | Some m =>
      Some (Qsum (map (fun x => (inject_Z x - m) * (inject_Z x - m)) l)
            / inject_Z (len l))%Q
  end.

(** [np.mean(l) + np.std(l)], as the exact number; the code holds its
    binary64 rounding. *)
Definition mean_plus_std (l : list Z) : npfloat :=
  match np_mean l, np_var l with
  | Some m, Some v => surd m v
  | _, _ => nan
  end.

Definition Qltb (a b : Q) : bool := negb (Qle_bool b a).

(** [x > t] for an integer [x]: false against [nan]; against [m + sqrt v]
    it holds when [x - m] is positive and its square exceeds [v]. *)
Definition gt_npfloat (x : Z) (t : npfloat) : bool :=
  match t with
  | nan => false
  | surd m v =>
      let a := (inject_Z x - m)%Q in
      Qltb 0 a && Qltb v (a * a)
  end.

(** The real number an [npfloat] stands for. *)
Definition npfloat_R (t : npfloat) : option R :=
  match t with
  | nan => None
  | surd m v => Some (Q2R m + sqrt (Q2R v))%R
  end.

(** ** Results and exceptions *)

Inductive exn : Type :=
| AttributeError
| IndexError
| ZeroDivisionError
| ValueError (msg : string).

(** A method either returns with the object in state [s], raises with the
    object left in state [s], or is still waiting for the device when the
    fuel ends. *)
Inductive res (S : Type) : Type :=
| Ok (s : S)
| Raise (e : exn) (s : S)
| Unfinished (s : S).

Arguments Ok {S} s.
Arguments Raise {S} e s.
Arguments Unfinished {S} s.

Definition and_then {S : Type} (r : res S) (f : S -> res S) : res S :=
  match r with
  | Ok s => f s
  | Raise e s => Raise e s
  | Unfinished s => Unfinished s
  end.

Notation "r >>= f" := (and_then r f) (at level 50, left associativity).

(** ** The serial device *)

(** The three operations the class uses of its [serial] object. *)
Class Serial (D : Type) : Type := {
  inWaiting : D -> Z;
  read : Z -> D -> list Z * D;
  reset_input_buffer : D -> D
}.

(** A simulated port: the bytes already buffered and those still to come.
    A read takes from the buffer first and waits for the missing bytes; at
    the end of the stream it times out and returns what it has. *)
Record SimSerial : Type := {
  buffered : list Z;
  incoming : list Z
}.

Definition sim_read (n : Z) (d : SimSerial) : list Z * SimSerial :=
  let k := Z.to_nat n in
  let missing := (k - length (buffered d))%nat in
  (firstn k (buffered d) ++ firstn missing (incoming d),
   {| buffered := skipn k (buffered d);
      incoming := skipn missing (incoming d) |}).

#[export] Instance SimSerial_Serial : Serial SimSerial := {
  inWaiting d := len (buffered d);
  read := sim_read;
  reset_input_buffer d := {| buffered := []; incoming := incoming d |}
}.

(** ** The Oximeter object *)

Section OximeterClass.
Context {D : Type} `{Serial D}.

(** The attributes of an [Oximeter].  [triggers] is an attribute that
    [__init__] never creates: [None] stands for its absence. *)
Record Oximeter : Type := mkOximeter {
  serial : D;
  lag : Z;
  sfreq : Z;
  dist : Z;
  instant_rr : list Q;
  recording : list Z;
  times : list Q;
  threshold : list npfloat;
  diff : list Z;
  peaks : list Z;
  channels : option (list (string * list Z));
  triggers : option (list Z)
}.

Definition set_serial (d : D) (s : Oximeter) : Oximeter :=
  mkOximeter d (lag s) (sfreq s) (dist s) (instant_rr s) (recording s)
    (times s) (threshold s) (diff s) (peaks s) (channels s) (triggers s).

Definition set_lag (v : Z) (s : Oximeter) : Oximeter :=
  mkOximeter (serial s) v (sfreq s) (dist s) (instant_rr s) (recording s)
    (times s) (threshold s) (diff s) (peaks s) (channels s) (triggers s).

Definition set_instant_rr (v : list Q) (s : Oximeter) : Oximeter :=
  mkOximeter (serial s) (lag s) (sfreq s) (dist s) v (recording s)
    (times s) (threshold s) (diff s) (peaks s) (channels s) (triggers s).

Definition set_recording (v : list Z) (s : Oximeter) : Oximeter :=
  mkOximeter (serial s) (lag s) (sfreq s) (dist s) (instant_rr s) v
    (times s) (threshold s) (diff s) (peaks s) (channels s) (triggers s).

Definition set_times (v : list Q) (s : Oximeter) : Oximeter :=
  mkOximeter (serial s) (lag s) (sfreq s) (dist s) (instant_rr s)
    (recording s) v (threshold s) (diff s) (peaks s) (channels s)
    (triggers s).

Definition set_threshold (v : list npfloat) (s : Oximeter) : Oximeter :=
  mkOximeter (serial s) (lag s) (sfreq s) (dist s) (instant_rr s)
    (recording s) (times s) v (diff s) (peaks s) (channels s) (triggers s).

Definition set_diff (v : list Z) (s : Oximeter) : Oximeter :=
  mkOximeter (serial s) (lag s) (sfreq s) (dist s) (instant_rr s)
    (recording s) (times s) (threshold s) v (peaks s) (channels s)
    (triggers s).

Definition set_peaks (v : list Z) (s : Oximeter) : Oximeter :=
  mkOximeter (serial s) (lag s) (sfreq s) (dist s) (instant_rr s)
    (recording s) (times s) (threshold s) (diff s) v (channels s)
    (triggers s).

Definition set_triggers (v : option (list Z)) (s : Oximeter) : Oximeter :=
  mkOximeter (serial s) (lag s) (sfreq s) (dist s) (instant_rr s)
    (recording s) (times s) (threshold s) (diff s) (peaks s) (channels s) v.

(** [str(i)] for the indices of [range(5)] *)
Definition str_digit (i : nat) : string :=
  match i with
  | 0%nat => "0"
  | 1%nat => "1"
  | 2%nat => "2"
  | 3%nat => "3"
  | _ => "4"
  end.

(** The [channels] attribute built by [__init__]: whatever count is
    asked for, the loop runs over [range(5)]. *)
Definition init_channels (add_channels : option Z)
  : option (list (string * list Z)) :=
  match add_channels with
  | Some _ =>
      let add_channels := 5%nat in
      Some (map (fun i => (("Channel_" ++ str_digit i)%string, []))
                (seq 0 add_channels))
  | None => None
  end.

(** [int(sfreq * 0.2)]: the product with the double nearest to 0.2 lies
    within rounding of [sfreq / 5], and [int] truncates towards zero. *)
Definition int_fifth (sfreq : Z) : Z := Z.quot sfreq 5.

Definition default_sfreq : Z := 75.

(** [Oximeter(serial, sfreq, add_channels)]: a new object, on which
    [__init__] has run. *)
Definition new_Oximeter (ser : D) (sf : Z) (add_channels : option Z)
  : Oximeter :=
  {| serial := ser;
     lag := 0;
     sfreq := sf;
     dist := int_fifth sf;
     instant_rr := [];
     recording := [];
     times := [];
     threshold := [];
     diff := [];
     peaks := [];
     channels := init_channels add_channels;
     triggers := None |}.

(** [self.__init__(serial, sfreq, add_channels)] on an existing object:
    every attribute the constructor assigns is overwritten, the others
    stay. *)
Definition __init__ (self : Oximeter) (ser : D) (sf : Z)
    (add_channels : option Z) : Oximeter :=
  set_triggers (triggers self) (new_Oximeter ser sf add_channels).

(** *** [add_paquet], statement by statement *)

(** [self.recording.append(paquet)] *)
Definition store_data (paquet : Z) (s : Oximeter) : Oximeter :=
  set_recording (recording s ++ [paquet]) s.

(** [ch.append(0)] for [ch] a key of the dict: a [str] has no [append]. *)
Definition key_append (ch : string) (v : Z) (s : Oximeter) : res Oximeter :=
  Raise AttributeError s.

(** [for ch in self.channels: ch.append(0)]: iterating a dict yields its
    keys. *)
Definition add_zero_to_channels (s : Oximeter) : res Oximeter :=
  match channels s with
  | Some chs =>
      fold_left (fun r ch => r >>= key_append ch 0) (map fst chs) (Ok s)
  | None => Ok s
  end.

(** The times vector: [[0]] at first, then [len(times) / sfreq]. *)
Definition update_times (s : Oximeter) : res Oximeter :=
  match times s with
  | [] => Ok (set_times [0%Q] s)
  | _ :: _ =>
      if sfreq s =? 0 then Raise ZeroDivisionError s
      else Ok (set_times
                 (times s ++ [(inject_Z (len (times s)) / inject_Z (sfreq s))%Q])
                 s)
  end.

(** [window = int(window * self.sfreq)], for an integer [window], then mean
    plus standard deviation of [self.recording[-window:]]. *)
Definition update_threshold (window : Z) (s : Oximeter) : Oximeter :=
  let window := window * sfreq s in
  set_threshold
    (threshold s ++ [mean_plus_std (slice_from (- window) (recording s))]) s.

(** The differential: built from the recording while it is empty (and the
    peaks vector rebuilt as zeros), extended by one difference afterwards. *)
Definition update_diff (s : Oximeter) : res Oximeter :=
  match diff s with
  | [] =>
      Ok (set_peaks (repeat 0 (length (recording s)))
            (set_diff (np_diff (recording s)) s))
  | _ :: _ =>
      match py_last (recording s), py_last2 (recording s) with
      | Some a, Some b => Ok (set_diff (diff s ++ [a - b]) s)
      | _, _ => Raise IndexError s
      end
  end.

(** The nested tests that register a peak.  The [|] of the second test
    evaluates both of its operands, so [diff[-2]] is read as soon as the
    value exceeds the threshold. *)
Definition detect_peak (paquet : Z) (s : Oximeter) : res Oximeter :=
  match py_last (threshold s) with
  | None => Raise IndexError s
  | Some t =>
      if gt_npfloat paquet t then
        match py_last (diff s), py_last2 (diff s) with
        | Some d1, Some d0 =>
            if (d1 =? 0) || negb (Bool.eqb (d1 >? 0) (d0 >? 0)) then
              if d0 >? 0 then
                if lag s >? dist s then
                  Ok (set_lag (-1) (set_peaks (peaks s ++ [1]) s))
                else Ok s
              else Ok s
            else Ok s
        | _, _ => Raise IndexError s
        end
      else Ok s
  end.

(** [if self.lag >= 0: self.peaks.append(0)], then [self.lag += 1]. *)
Definition close_sample (s : Oximeter) : Oximeter :=
  let s1 := if lag s >=? 0 then set_peaks (peaks s ++ [0]) s else s in
  set_lag (lag s1 + 1) s1.

(** The instantaneous RR interval: with more than two peaks, the last
    difference of the peak positions over [sfreq], times 1000. *)
Definition update_rr (s : Oximeter) : res Oximeter :=
  if py_sum (peaks s) >? 2 then
    match py_last (np_diff (np_where (peaks s))) with
    | Some d =>
        Ok (set_instant_rr
              (instant_rr s ++ [(inject_Z d / inject_Z (sfreq s) * 1000)%Q]) s)
    | None => Raise IndexError s
    end
  else Ok (set_instant_rr (instant_rr s ++ [0%Q]) s).

(** [self.add_paquet(paquet, window)] *)
Definition add_paquet (s : Oximeter) (paquet window : Z) : res Oximeter :=
  add_zero_to_channels (store_data paquet s)
  >>= update_times
  >>= (fun s => Ok (update_threshold window s))
  >>= update_diff
  >>= detect_peak paquet
  >>= (fun s => Ok (close_sample s))
  >>= update_rr.

(** A sequence of calls [add_paquet(paquet, window)], stopping at the
    first exception. *)
Fixpoint ingests (s : Oximeter) (calls : list (Z * Z)) : res Oximeter :=
  match calls with
  | [] => Ok s
  | (paquet, window) :: rest => add_paquet s paquet window >>= (fun s' => ingests s' rest)
  end.

(** *** The device loops *)

(** [while True: reset_input_buffer(); paquet = list(read(5));
    if check(paquet): break].  The boolean tells whether a frame was
    found before the fuel ended. *)
Fixpoint find_start (fuel : nat) (d : D) : bool * D :=
  match fuel with
  | O => (false, d)
  | S fuel' =>
      let (paquet, d') := read 5 (reset_input_buffer d) in
      if check paquet then (true, d') else find_start fuel' d'
  end.

(** [self.setup()]: [self.__init__(serial=self.serial)], then the search
    for a start frame. *)
Definition setup (fuel : nat) (s : Oximeter) : res Oximeter :=
  let s0 := __init__ s (serial s) default_sfreq None in
  let (found, d) := find_start fuel (serial s0) in
  if found then Ok (set_serial d s0) else Unfinished (set_serial d s0).

(** [self.triggers[-1] = -1] *)
Definition mark_trigger (s : Oximeter) : res Oximeter :=
  match triggers s with
  | None => Raise AttributeError s
  | Some t =>
      match set_last (-1) t with
      | Some t' => Ok (set_triggers (Some t') s)
      | None => Raise IndexError s
      end
  end.

(** [self.readInWaiting(stop)], with the lines it prints.  Each turn of
    the outer loop takes one unit of fuel, and the inner search gets what
    is left. *)
Fixpoint readInWaiting (fuel : nat) (s : Oximeter) (stop : bool)
    (out : list string) : list string * res Oximeter :=
  match fuel with
  | O => (out, Unfinished s)
  | S fuel' =>
      if inWaiting (serial s) >=? 5 then
        let (paquet, d') := read 5 (serial s) in
        let s := set_serial d' s in
        if check paquet then
          match py_index paquet 2 with
          | Some p2 =>
              match add_paquet s p2 1 with
              | Ok s' => readInWaiting fuel' s' stop out
              | r => (out, r)
              end
          | None => (out, Raise IndexError s)
          end
        else if stop then (out, Raise (ValueError "Synch error") s)
        else
          let out := out ++ ["Synch error"%string] in
          match mark_trigger s with
          | Ok s' =>
              let (found, d'') := find_start fuel' (serial s') in
              if found then readInWaiting fuel' (set_serial d'' s') stop out
              else (out, Unfinished (set_serial d'' s'))
          | r => (out, r)
          end
      else (out, Ok s)
  end.
End OximeterClass.

Arguments Oximeter D : clear implicits.

(** ** The vocabulary of the specification *)





(** The value [x] is strictly greater than the threshold [t]. *)
Definition exceeds (x : Z) (t : npfloat) : Prop :=
  exists r : R, npfloat_R t = Some r /\ (r < IZR x)%R.

(** The number of registered peaks: the 1-entries of the peaks vector. *)
Definition peak_count (p : list Z) : nat := count_occ Z.eq_dec p 1.

(** [j] is the position of the last peak of [p] and [i] the position of the
    peak before it. *)
Definition last_two_peaks (p : list Z) (i j : nat) : Prop :=
  (i < j)%nat /\ nth_error p i = Some 1 /\ nth_error p j = Some 1 /\
  forall k : nat, (i < k)%nat -> nth_error p k = Some 1 -> k = j.

Section Properties.
Context {D : Type}.

(** Every per-sample series of [s] has length [n]. *)
Definition all_series_length (s : Oximeter D) (n : nat) : Prop :=
  length (recording s) = n /\ length (times s) = n /\
  length (threshold s) = n /\ length (diff s) = n /\
  length (peaks s) = n /\ length (instant_rr s) = n /\
  forall chs, channels s = Some chs ->
              Forall (fun ch => length (snd ch) = n) chs.

(** What the peak tests of [add_paquet s x w] answer: the threshold, taken
    over the recording extended by [x], is exceeded; the new differential
    [x - y] is zero or differs in positivity from the previous one [d0];
    [d0] is positive; and the lag exceeds [dist]. *)
Definition registers (s : Oximeter D) (x w : Z) : bool :=
  match py_last (recording s), py_last (diff s) with
  | Some y, Some d0 =>
      gt_npfloat x
        (mean_plus_std (slice_from (- (w * sfreq s)) (recording s ++ [x])))
      && ((x - y =? 0) || negb (Bool.eqb (x - y >? 0) (d0 >? 0)))
      && (d0 >? 0) && (lag s >? dist s)
  | _, _ => false
  end.

(** The RR entry computed from the sampling rate and a peaks vector. *)
Definition rr_entry (sf : Z) (p : list Z) : Q :=
  if py_sum p >? 2 then
    match py_last (np_diff (np_where p)) with
    | Some d => (inject_Z d / inject_Z sf * 1000)%Q
    | None => 0%Q
    end
  else 0%Q.

(** The state [s'] that [add_paquet s x w] returns, attribute by
    attribute. *)
Record ingest_post (s : Oximeter D) (x w : Z) (s' : Oximeter D) : Prop := {
  post_serial : serial s' = serial s;
  post_sfreq : sfreq s' = sfreq s;
  post_dist : dist s' = dist s;
  post_channels : channels s' = channels s;
  post_triggers : triggers s' = triggers s;
  post_recording : recording s' = recording s ++ [x];
  post_times :
    times s' =
    times s ++ [match times s with
                | [] => 0%Q
                | _ :: _ => (inject_Z (len (times s)) / inject_Z (sfreq s))%Q
                end];
  post_threshold :
    threshold s' =
    threshold s ++
      [mean_plus_std (slice_from (- (w * sfreq s)) (recording s ++ [x]))];
  post_diff :
    diff s' = match diff s with
              | [] => np_diff (recording s ++ [x])
              | _ :: _ => diff s ++ [x - last (recording s) 0]
              end;
  post_peaks :
    peaks s' =
    match diff s with
    | [] => repeat 0 (S (length (recording s)))
    | _ :: _ => peaks s
    end ++ [if registers s x w then 1 else 0];
  post_lag : lag s' = (if registers s x w then -1 else lag s) + 1;
  post_rr : instant_rr s' = instant_rr s ++ [rr_entry (sfreq s) (peaks s')]
}.

(** The states on which [add_paquet] is known to return: those reached
    from a new object without additional channels and with a non-zero
    sampling rate, after [n] calls. *)
Record recorded (n : nat) (s : Oximeter D) : Prop := {
  rec_channels : channels s = None;
  rec_sfreq : sfreq s <> 0;
  rec_recording : length (recording s) = n;
  rec_times : length (times s) = n;
  rec_threshold : length (threshold s) = n;
  rec_rr : length (instant_rr s) = n;
  rec_diff : length (diff s) = pred n;
  rec_peaks : length (peaks s) = match n with O => O | S _ => S n end;
  rec_lag : 0 <= lag s;
  rec_binary : Forall (fun b => b = 0 \/ b = 1) (peaks s);
  rec_last_peak :
    forall k : nat, nth_error (peaks s) k = Some 1 ->
                    lag s <= len (peaks s) - 1 - Z.of_nat k;
  rec_separated :
    forall i j : nat, (i < j)%nat ->
                      nth_error (peaks s) i = Some 1 ->
                      nth_error (peaks s) j = Some 1 ->
                      dist s < Z.of_nat j - Z.of_nat i;
  rec_rr_nonneg : 0 < sfreq s -> Forall (fun q => 0 <= q)%Q (instant_rr s)
}.
End Properties.

(** ** Simulated ports and inputs used in the examples *)

(** A port on which nothing arrives. *)
Definition idle_port : SimSerial := {| buffered := []; incoming := [] |}.

(** A port holding a frame whose checksum is off by one, followed on the
    line by a valid frame. *)
Definition corrupted_port : SimSerial :=
  {| buffered := [1; 80; 120; 0; 202]; incoming := [1; 80; 121; 0; 202] |}.

(** Three beats with a flat top, read with the default window. *)
Definition plateau_wave : list (Z * Z) :=
  map (fun x => (x, 1))
      [0; 0; 0; 0; 9; 9; 0; 0; 0; 0; 9; 9; 0; 0; 0; 9; 9; 0; 0].

(** ** Further vocabulary: results, frames and invariants *)

(** The object a result carries. *)
Definition res_state {S : Type} (r : res S) : S :=
  match r with
  | Ok s => s
  | Raise _ s => s
  | Unfinished s => s
  end.

(** The result neither hangs nor waits. *)
Definition returns_or_raises {S : Type} (r : res S) : Prop :=
  match r with
  | Unfinished _ => False
  | _ => True
  end.

(** [f] applied to the object a result carries. *)
Definition res_map {S : Type} (f : S -> S) (r : res S) : res S :=
  match r with
  | Ok s => Ok (f s)
  | Raise e s => Raise e (f s)
  | Unfinished s => Unfinished (f s)
  end.

(** A frame of exactly five elements that [check] accepts. *)
Definition valid_frame (f : list Z) : Prop :=
  length f = 5%nat /\ check f = true.

(** A frame of five elements that [check] rejects. *)
Definition invalid_frame (f : list Z) : Prop :=
  length f = 5%nat /\ check f = false.

(** The calls [add_paquet(paquet[2])] that the loops make for a sequence of
    frames. *)
Definition frame_calls (frames : list (list Z)) : list (Z * Z) :=
  map (fun f => (nth 2 f 0, 1)) frames.

(** The simulated port with buffer [buf] and line [inc]. *)
Definition sim_port (buf inc : list Z) : SimSerial :=
  {| buffered := buf; incoming := inc |}.

Section MoreProperties.
Context {D : Type}.

(** The attributes that [__init__] fixes and no later statement of
    [add_paquet] assigns. *)
Definition same_setting (s s' : Oximeter D) : Prop :=
  serial s' = serial s /\ sfreq s' = sfreq s /\ dist s' = dist s /\
  channels s' = channels s /\ triggers s' = triggers s.

(** What holds of the object after the calls [calls] on a new one, beyond
    the lengths of its series. *)
Record traced (calls : list (Z * Z)) (s : Oximeter D) : Prop := {
  tr_recording : recording s = map fst calls;
  tr_diff : diff s = np_diff (recording s);
  tr_times :
    Forall2 Qeq (times s)
      (map (fun k => (inject_Z (Z.of_nat k) / inject_Z (sfreq s))%Q)
           (seq 0 (length calls)));
  tr_lag_le : lag s <= Z.of_nat (length calls);
  tr_first_peak :
    forall k : nat, nth_error (peaks s) k = Some 1 ->
                    (3 <= k)%nat /\ dist s + 1 < Z.of_nat k;
  tr_lag_no_peak :
    Forall (fun b => b = 0) (peaks s) -> lag s = Z.of_nat (length calls);
  tr_lag_since_peak :
    forall (pre : list Z) (k : nat),
      peaks s = pre ++ 1 :: repeat 0 k -> lag s = Z.of_nat k;
  tr_rr_zero :
    (peak_count (peaks s) < 3)%nat ->
    Forall (fun q => q = 0%Q) (instant_rr s);
  tr_local_max :
    forall k : nat, nth_error (peaks s) k = Some 1 ->
      exists (a b c : Z) (t : npfloat),
        nth_error (recording s) (k - 3) = Some a /\
        nth_error (recording s) (k - 2) = Some b /\
        nth_error (recording s) (k - 1) = Some c /\
        nth_error (threshold s) (k - 1) = Some t /\
        a < b /\ c <= b /\ exceeds c t
}.
(** [s'] has the recording and the setting of [s]. *)
Definition keeps (s s' : Oximeter D) : Prop :=
  recording s' = recording s /\ same_setting s s'.

End MoreProperties.

(** ** The remaining loops: [waitBeat] and [read] *)

Section MoreLoops.
Context {D : Type} `{Serial D}.

(** [any(l[-2:])] *)
Definition any_last_two (l : list Z) : bool :=
  existsb (fun v => negb (v =? 0)) (slice_from (-2) l).

(** [self.waitBeat()].  [stim], like [triggers], is an attribute that
    [__init__] does not create; it is carried beside the object, [None]
    standing for its absence.  The result gives the lines printed, the
    [stim] attribute and the outcome. *)
Fixpoint waitBeat (fuel : nat) (s : Oximeter D) (stim : option (list Z))
    (out : list string) : list string * option (list Z) * res (Oximeter D) :=
  match fuel with
  | O => (out, stim, Unfinished s)
  | S fuel' =>
      if inWaiting (serial s) >=? 5 then
        let (paquet, d') := read 5 (serial s) in
        let s := set_serial d' s in
        if check paquet then
          match py_index paquet 2 with
          | Some p2 =>
              match add_paquet s p2 1 with
              | Ok s' =>
                  match triggers s' with
                  | None => (out, stim, Raise AttributeError s')
                  | Some t =>
                      if any_last_two t then
                        match stim with
                        | None => (out, stim, Raise AttributeError s')
                        | Some st =>
                            match set_last 1 st with
                            | Some st' => (out, Some st', Ok s')
                            | None => (out, stim, Raise IndexError s')
                            end
                        end
                      else waitBeat fuel' s' stim out
                  end
              | r => (out, stim, r)
              end
          | None => (out, stim, Raise IndexError s)
          end
        else waitBeat fuel' s stim (out ++ ["Synch error"%string])
      else waitBeat fuel' s stim out
  end.

(** What a run of [readInWaiting] from [s] and [out] may have done when it
    ends with the lines [out'] and the result [r]. *)
Definition drained (s : Oximeter D) (out : list string)
    (out' : list string) (r : res (Oximeter D)) : Prop :=
  exists (vals : list Z) (lines : list string),
    recording (res_state r) = recording s ++ vals /\
    Forall (fun v => 0 <= v <= 255) vals /\
    sfreq (res_state r) = sfreq s /\ dist (res_state r) = dist s /\
    channels (res_state r) = channels s /\
    out' = out ++ lines.
(** One turn of the loop of [self.read(duration)]: a frame is read when five
    bytes are waiting; a valid one is ingested, an invalid one makes the
    object run [setup]. *)
Definition read_turn (setup_fuel : nat) (s : Oximeter D) : res (Oximeter D) :=
  if inWaiting (serial s) >=? 5 then
    let (paquet, d') := read 5 (serial s) in
    let s := set_serial d' s in
    if check paquet then
      match py_index paquet 2 with
      | Some p2 => add_paquet s p2 1
      | None => Raise IndexError s
      end
    else setup setup_fuel s
  else Ok s.

(** The loop of [read]: [clock] lists the values that the successive calls
    of [time.time()] return, one per test of the loop condition. *)
Fixpoint read_loop (clock : list Q) (setup_fuel : nat) (tstart duration : Q)
    (s : Oximeter D) : res (Oximeter D) :=
  match clock with
  | [] => Unfinished s
  | t :: clock' =>
      if Qltb (t - tstart) duration then
        read_turn setup_fuel s >>= read_loop clock' setup_fuel tstart duration
      else Ok s
  end.

(** [self.read(duration)]; the first clock value is [tstart]. *)
Definition Oximeter_read (clock : list Q) (setup_fuel : nat) (s : Oximeter D)
    (duration : Q) : res (Oximeter D) :=
  match clock with
  | [] => Unfinished s
  | tstart :: clock' => read_loop clock' setup_fuel tstart duration s
  end.
End MoreLoops.

(** ** List and arithmetic facts *)

Section ListFacts.
Context {A : Type}.

Lemma py_last_app (l : list A) (x : A) : py_last (l ++ [x]) = Some x.
Proof. unfold py_last. now rewrite rev_unit. Qed.

Lemma py_last2_app (l : list A) (x : A) : py_last2 (l ++ [x]) = py_last l.
Proof. unfold py_last2, py_last. rewrite rev_unit. now destruct (rev l). Qed.

Lemma py_last_None (l : list A) : py_last l = None -> l = [].
Proof.
  unfold py_last. destruct (rev l) eqn:E; [|discriminate].
  intros _. apply (f_equal (@rev A)) in E. now rewrite rev_involutive in E.
Qed.

Lemma len_app (l : list A) (x : A) : len (l ++ [x]) = len l + 1.
Proof. unfold len. rewrite length_app. cbn [length]. lia. Qed.

Lemma nth_error_snoc (l : list A) (x : A) (k : nat) (v : A) :
  nth_error (l ++ [x]) k = Some v ->
  nth_error l k = Some v \/ (k = length l /\ v = x).
Proof.
  intros E. destruct (Nat.lt_ge_cases k (length l)) as [L|L].
  - left. now rewrite nth_error_app1 in E.
  - right. rewrite nth_error_app2 in E by exact L.
    destruct (k - length l)%nat as [|m] eqn:K; cbn in E.
    + split; [lia | congruence].
    + now destruct m.
Qed.

Lemma snoc_cases (l : list A) : l = [] \/ exists r y, l = r ++ [y].
Proof.
  destruct l as [|a l]; [now left|right].
  destruct (exists_last (l := a :: l)) as [r [y E]]; [discriminate|].
  now exists r, y.
Qed.
End ListFacts.

Lemma length_np_diff (l : list Z) : length (np_diff l) = pred (length l).
Proof.
  induction l as [|a [|b tl] IH]; try reflexivity.
  change (np_diff (a :: b :: tl)) with ((b - a) :: np_diff (b :: tl)).
  cbn [length] in *. now rewrite IH.
Qed.

Lemma np_diff_last_two (pre : list Z) (i j : Z) :
  py_last (np_diff (pre ++ [i; j])) = Some (j - i).
Proof.
  induction pre as [|a [|b pre] IH]; try reflexivity.
  change (py_last (np_diff (a :: (b :: pre) ++ [i; j])) = Some (j - i)).
  cbn [app] in *.
  change (np_diff (a :: b :: pre ++ [i; j]))
    with ((b - a) :: np_diff (b :: pre ++ [i; j])).
  unfold py_last in *. cbn [rev].
  destruct (rev (np_diff (b :: pre ++ [i; j]))) eqn:E; [discriminate|].
  cbn [app]. exact IH.
Qed.

Lemma np_where_from_snoc (o : Z) (p : list Z) (b : Z) :
  np_where_from o (p ++ [b]) =
  np_where_from o p ++ (if b =? 0 then [] else [o + len p]).
Proof.
  revert o. induction p as [|x p IH]; intros o.
  - cbn. unfold len. cbn. rewrite Z.add_0_r. now destruct (b =? 0).
  - cbn [app np_where_from]. rewrite IH.
    replace (o + 1 + len p) with (o + len (x :: p))
      by (unfold len; cbn [length]; lia).
    now destruct (x =? 0).
Qed.

Lemma Qltb_false_iff (a b : Q) : Qltb a b = false <-> (b <= a)%Q.
Proof.
  unfold Qltb. rewrite negb_false_iff. apply Qle_bool_iff.
Qed.

Lemma Qltb_true_iff (a b : Q) : Qltb a b = true <-> (a < b)%Q.
Proof.
  unfold Qltb. rewrite negb_true_iff. split.
  - intros E. apply Qnot_le_lt. intros L. apply Qle_bool_iff in L. congruence.
  - intros L. destruct (Qle_bool b a) eqn:E; [|reflexivity].
    apply Qle_bool_iff in E. exfalso. exact (Qlt_not_le _ _ L E).
Qed.

(** With one or two values in the window, the newest value never exceeds
    mean plus standard deviation. *)
Lemma no_crossing_one (x : Z) : gt_npfloat x (mean_plus_std [x]) = false.
Proof.
  cbn. apply andb_false_intro1. apply Qltb_false_iff.
  unfold Qle, Qminus, Qplus, Qopp, Qdiv, Qmult, Qinv, inject_Z. simpl. lia.
Qed.

Lemma no_crossing_two (y x : Z) : gt_npfloat x (mean_plus_std [y; x]) = false.
Proof.
  cbn. apply andb_false_intro2. apply Qltb_false_iff.
  unfold Qle, Qminus, Qplus, Qopp, Qdiv, Qmult, Qinv, inject_Z. simpl. nia.
Qed.

Lemma no_crossing_short (start x : Z) (l : list Z) :
  (length l <= 1)%nat ->
  gt_npfloat x (mean_plus_std (slice_from start (l ++ [x]))) = false.
Proof.
  intros L. unfold slice_from.
  destruct l as [|y [|z l]]; [| |cbn in L; lia]; cbn [app].
  - destruct (Z.to_nat _) as [|k]; [apply no_crossing_one|].
    now destruct k.
  - destruct (Z.to_nat _) as [|[|k]];
      [apply no_crossing_two | apply no_crossing_one |].
    now destruct k.
Qed.

(** ** One call of [add_paquet] *)

Section Ingest.
Context {D : Type}.
Implicit Types s : Oximeter D.

Lemma py_sum_app (p q : list Z) : py_sum (p ++ q) = py_sum p + py_sum q.
Proof. unfold py_sum. induction p as [|a p IH]; cbn [app fold_right]; lia. Qed.

Lemma py_sum_repeat0 (n : nat) : py_sum (repeat 0 n) = 0.
Proof. induction n; cbn; [reflexivity|]. exact IHn. Qed.

Lemma binary_sum_where (p : list Z) (o : Z) :
  Forall (fun b => b = 0 \/ b = 1) p ->
  py_sum p = len (np_where_from o p).
Proof.
  intros F. revert o. induction F as [|b p [E|E] F IH]; intros o; subst.
  - reflexivity.
  - cbn. exact (IH (o + 1)).
  - cbn [np_where_from py_sum fold_right].
    change (1 =? 0) with false. cbn iota.
    unfold len in *. cbn [length]. unfold py_sum in IH. rewrite (IH (o + 1)). lia.
Qed.

Lemma update_rr_binary s :
  Forall (fun b => b = 0 \/ b = 1) (peaks s) ->
  update_rr s =
  Ok (set_instant_rr (instant_rr s ++ [rr_entry (sfreq s) (peaks s)]) s).
Proof.
  intros F. unfold update_rr, rr_entry.
  destruct (py_sum (peaks s) >? 2) eqn:G; [|reflexivity].
  destruct (py_last (np_diff (np_where (peaks s)))) eqn:E; [reflexivity|].
  exfalso. apply py_last_None in E.
  apply (f_equal (@length Z)) in E. rewrite length_np_diff in E.
  rewrite (binary_sum_where _ 0 F) in G. fold (np_where (peaks s)) in G.
  unfold len in G. cbn [length] in E. apply Z.gtb_lt in G. lia.
Qed.

Lemma detect_peak_no_crossing s (x : Z) (t : npfloat) :
  py_last (threshold s) = Some t -> gt_npfloat x t = false ->
  detect_peak x s = Ok s.
Proof. intros T G. unfold detect_peak. now rewrite T, G. Qed.

Lemma detect_peak_two_diffs s (x : Z) (t : npfloat) (d1 d0 : Z) :
  py_last (threshold s) = Some t ->
  py_last (diff s) = Some d1 -> py_last2 (diff s) = Some d0 ->
  detect_peak x s =
  Ok (if gt_npfloat x t
         && ((d1 =? 0) || negb (Bool.eqb (d1 >? 0) (d0 >? 0)))
         && (d0 >? 0) && (lag s >? dist s)
      then set_lag (-1) (set_peaks (peaks s ++ [1]) s) else s).
Proof.
  intros T E1 E0. unfold detect_peak. rewrite T, E1, E0.
  destruct (gt_npfloat x t); [|reflexivity].
  destruct ((d1 =? 0) || negb (Bool.eqb (d1 >? 0) (d0 >? 0))); [|reflexivity].
  destruct (d0 >? 0); [|reflexivity].
  now destruct (lag s >? dist s).
Qed.

#[local] Arguments gt_npfloat : simpl never.
#[local] Arguments mean_plus_std : simpl never.
#[local] Arguments slice_from : simpl never.
#[local] Arguments detect_peak : simpl never.
#[local] Arguments update_rr : simpl never.
#[local] Arguments rr_entry : simpl never.
#[local] Arguments registers : simpl never.
#[local] Arguments np_diff : simpl never.
#[local] Arguments Z.add : simpl never.
#[local] Arguments Z.mul : simpl never.
#[local] Arguments Z.sub : simpl never.
#[local] Arguments Z.opp : simpl never.

#[local] Arguments py_last : simpl never.
#[local] Arguments py_last2 : simpl never.

Lemma binary_snoc (p : list Z) (b : Z) :
  Forall (fun b => b = 0 \/ b = 1) p -> b = 0 \/ b = 1 ->
  Forall (fun b => b = 0 \/ b = 1) (p ++ [b]).
Proof. intros F B. apply Forall_app. split; [exact F | now constructor]. Qed.

Lemma binary_repeat0 (n : nat) : Forall (fun b => b = 0 \/ b = 1) (repeat 0 n).
Proof. induction n; cbn; constructor; auto. Qed.

Lemma add_paquet_post (n : nat) s (x w : Z) :
  recorded n s -> exists s', add_paquet s x w = Ok s' /\ ingest_post s x w s'.
Proof.
  intros R. destruct R.
  destruct s as [ser lg sf ds rr rc tm th df pk ch tr]. cbn in *. subst ch.
  assert (Hlag : (lg >=? 0) = true) by (apply Z.geb_le; lia).
  assert (Hsf : (sf =? 0) = false) by (now apply Z.eqb_neq).
  unfold add_paquet, store_data, add_zero_to_channels.
  destruct (snoc_cases rc) as [->|[r [y ->]]].
  - (* the first sample *)
    cbn in rec_recording0. subst n.
    destruct tm; [|discriminate]. destruct df; [|discriminate].
    cbn.
    erewrite detect_peak_no_crossing;
      [| cbn; apply py_last_app
       | apply (no_crossing_short _ x []); cbn; lia].
    cbn. unfold close_sample. cbn. rewrite Hlag.
    rewrite update_rr_binary by (cbn; repeat constructor; now left).
    eexists. split; [reflexivity|].
    constructor; reflexivity.
  - rewrite length_app in rec_recording0. cbn in rec_recording0.
    destruct tm as [|t0 tm]; [cbn in rec_times0; lia|].
    destruct df as [|d df].
    + (* the second sample: the differential is still empty *)
      assert (r = []) as -> by (destruct r; [reflexivity | cbn in *; lia]).
      cbn. rewrite Hsf. cbn.
      erewrite detect_peak_no_crossing;
        [| cbn; apply py_last_app
         | apply (no_crossing_short _ x [y]); cbn; lia].
      cbn. unfold close_sample. cbn. rewrite Hlag.
      rewrite update_rr_binary by (cbn; repeat constructor; now left).
      eexists. split; [reflexivity|].
      constructor; reflexivity.
    + (* later samples *)
      assert (exists d0, py_last (d :: df) = Some d0) as [d0 Ed0].
      { destruct (snoc_cases (d :: df)) as [E|[df' [d0 E]]]; [discriminate|].
        exists d0. rewrite E. apply py_last_app. }
      cbn. rewrite Hsf. cbn.
      rewrite py_last_app, py_last2_app, py_last_app. cbn.
      erewrite detect_peak_two_diffs;
        [| cbn; apply py_last_app
         | cbn; apply (py_last_app (d :: df))
         | cbn; change (d :: df ++ [x - y]) with ((d :: df) ++ [x - y]);
           rewrite py_last2_app; exact Ed0 ].
      cbn.
      set (reg := gt_npfloat x _ && _ && _ && _).
      assert (Hreg : registers
                       {| serial := ser; lag := lg; sfreq := sf; dist := ds;
                          instant_rr := rr; recording := r ++ [y];
                          times := t0 :: tm; threshold := th;
                          diff := d :: df; peaks := pk;
                          channels := None; triggers := tr |} x w = reg).
      { unfold registers. cbn. now rewrite py_last_app, Ed0. }
      assert (Hlast : last (r ++ [y]) 0 = y) by apply last_last.
      destruct reg; cbn; unfold close_sample; cbn; [|rewrite Hlag].
      * rewrite update_rr_binary
          by (cbn; apply binary_snoc; [assumption | now right]).
        eexists. split; [reflexivity|].
        constructor; cbn; rewrite ?Hreg, ?Hlast; reflexivity.
      * rewrite update_rr_binary
          by (cbn; apply binary_snoc; [assumption | now left]).
        eexists. split; [reflexivity|].
        constructor; cbn; rewrite ?Hreg, ?Hlast; reflexivity.
Qed.

Lemma nth_error_repeat0 (m k : nat) : nth_error (repeat 0 m) k <> Some 1.
Proof.
  intros E. apply nth_error_In, repeat_spec in E. discriminate.
Qed.

Lemma registers_lag s (x w : Z) : registers s x w = true -> dist s < lag s.
Proof.
  unfold registers.
  destruct (py_last (recording s)); [|discriminate].
  destruct (py_last (diff s)); [|discriminate].
  rewrite !andb_true_iff. intros [_ G]. now apply Z.gtb_lt in G.
Qed.

(** The positions returned by [np.where] increase, so their consecutive
    differences are positive. *)
Lemma np_where_from_ge (o : Z) (p : list Z) :
  Forall (fun k => o <= k) (np_where_from o p).
Proof.
  revert o. induction p as [|x p IH]; intros o; cbn; [constructor|].
  assert (F : Forall (fun k => o <= k) (np_where_from (o + 1) p)).
  { eapply Forall_impl; [|apply IH]. cbn. intros; lia. }
  destruct (x =? 0); [exact F | constructor; [lia | exact F]].
Qed.

Lemma np_diff_where_pos (o : Z) (p : list Z) :
  Forall (fun d => 0 < d) (np_diff (np_where_from o p)).
Proof.
  revert o. induction p as [|x p IH]; intros o; cbn; [constructor|].
  destruct (x =? 0); [apply IH|].
  pose proof (np_where_from_ge (o + 1) p) as G. specialize (IH (o + 1)).
  destruct (np_where_from (o + 1) p) as [|k l]; [constructor|].
  change (np_diff (o :: k :: l)) with ((k - o) :: np_diff (k :: l)).
  constructor; [|exact IH]. inversion G; subst. lia.
Qed.

Lemma py_last_In {A : Type} (l : list A) (x : A) : py_last l = Some x -> In x l.
Proof.
  unfold py_last. destruct (rev l) eqn:E; [discriminate|].
  intros [= ->]. apply in_rev. rewrite E. now left.
Qed.

Lemma rr_entry_nonneg (sf : Z) (p : list Z) :
  0 < sf -> (0 <= rr_entry sf p)%Q.
Proof.
  intros S. unfold rr_entry.
  destruct (py_sum p >? 2); [|apply Qle_refl].
  destruct (py_last (np_diff (np_where p))) as [d|] eqn:E; [|apply Qle_refl].
  apply py_last_In in E.
  pose proof (np_diff_where_pos 0 p) as F. rewrite Forall_forall in F.
  apply F in E.
  unfold Qle, Qdiv, Qmult, Qinv, inject_Z. cbn.
  destruct sf as [|q|q]; try lia. cbn. lia.
Qed.

Lemma ingest_post_recorded (n : nat) s (x w : Z) s' :
  recorded n s -> ingest_post s x w s' -> recorded (S n) s'.
Proof.
  intros R P. destruct R, P.
  assert (Hbase : match diff s with
                  | [] => repeat 0 (S (length (recording s)))
                  | _ :: _ => peaks s
                  end = peaks s \/
                  exists m, diff s = [] /\
                            match diff s with
                            | [] => repeat 0 (S (length (recording s)))
                            | _ :: _ => peaks s
                            end = repeat 0 m).
  { destruct (diff s); [right; eauto | now left]. }
  set (base := match diff s with
               | [] => repeat 0 (S (length (recording s)))
               | _ :: _ => peaks s
               end) in *.
  assert (Hlen : length base = S n).
  { subst base. destruct (diff s) eqn:E.
    - now rewrite repeat_length, rec_recording0.
    - cbn in rec_diff0. destruct n; [discriminate | exact rec_peaks0]. }
  assert (Hold : forall k, nth_error base k = Some 1 ->
                           nth_error (peaks s) k = Some 1 /\ base = peaks s).
  { intros k E. destruct Hbase as [Hb|[m [_ Hb]]].
    - now rewrite <- Hb.
    - rewrite Hb in E. now apply nth_error_repeat0 in E. }
  constructor.
  - congruence.
  - congruence.
  - rewrite post_recording0, length_app. cbn. lia.
  - rewrite post_times0, length_app. cbn. lia.
  - rewrite post_threshold0, length_app. cbn. lia.
  - rewrite post_rr0, length_app. cbn. lia.
  - rewrite post_diff0. destruct (diff s) eqn:E.
    + rewrite length_np_diff, length_app. cbn. lia.
    + rewrite length_app. cbn in *. lia.
  - rewrite post_peaks0, length_app. cbn. lia.
  - rewrite post_lag0. destruct (registers s x w); lia.
  - rewrite post_peaks0. apply binary_snoc.
    + subst base. destruct (diff s); [apply binary_repeat0 | assumption].
    + destruct (registers s x w); auto.
  - intros k E. rewrite post_peaks0 in *. rewrite len_app.
    rewrite post_lag0.
    apply nth_error_snoc in E. destruct E as [E|[-> E]].
    + pose proof (nth_error_Some base k) as B.
      destruct (Hold k E) as [E' Hb]. rewrite Hb in *.
      specialize (rec_last_peak0 k E').
      assert (k < length (peaks s))%nat by (apply B; congruence).
      unfold len in *. destruct (registers s x w); lia.
    + destruct (registers s x w); [|discriminate]. unfold len. lia.
  - intros i j L Ei Ej. rewrite post_peaks0 in *. rewrite post_dist0.
    apply nth_error_snoc in Ej. destruct Ej as [Ej|[-> Ej]].
    + apply nth_error_snoc in Ei. destruct Ei as [Ei|[-> _]].
      * destruct (Hold i Ei) as [Ei' _]. destruct (Hold j Ej) as [Ej' _].
        now apply rec_separated0.
      * assert (j < length base)%nat by (apply nth_error_Some; congruence).
        lia.
    + destruct (registers s x w) eqn:G; [|discriminate].
      apply nth_error_snoc in Ei. destruct Ei as [Ei|[-> _]]; [|lia].
      destruct (Hold i Ei) as [Ei' Hb]. rewrite Hb in *.
      specialize (rec_last_peak0 i Ei'). apply registers_lag in G.
      unfold len in *. lia.
  - intros S. rewrite post_rr0. apply Forall_app. split.
    + apply rec_rr_nonneg0. congruence.
    + constructor; [|constructor]. apply rr_entry_nonneg. congruence.
Qed.

Lemma new_Oximeter_recorded (d : D) (sf : Z) :
  sf <> 0 -> recorded 0 (new_Oximeter d sf None).
Proof.
  intros S. constructor; cbn; try reflexivity; try assumption; try lia.
  - constructor.
  - intros k E. now destruct k.
  - intros i j _ E. now destruct i.
  - constructor.
Qed.

Lemma ingests_recorded (calls : list (Z * Z)) : forall (n : nat) s,
  recorded n s ->
  exists s', ingests s calls = Ok s' /\ recorded (n + length calls) s' /\
             sfreq s' = sfreq s /\ dist s' = dist s.
Proof.
  induction calls as [|[x w] calls IH]; intros n s R.
  - exists s. rewrite Nat.add_0_r. split; [reflexivity|]. split; [exact R|]. now split.
  - destruct (add_paquet_post n s x w R) as [s1 [E P]].
    destruct (IH (S n) s1 (ingest_post_recorded _ _ _ _ _ R P))
      as [s' [E' [R' [F G]]]].
    exists s'. split; [|split; [|split]].
    + cbn [ingests]. rewrite E. exact E'.
    + cbn [length]. now rewrite Nat.add_succ_r.
    + rewrite F. apply P.
    + rewrite G. apply P.
Qed.

(** From a new object without channels, any sequence of calls returns. *)
Lemma ingests_new (d : D) (sf : Z) (calls : list (Z * Z)) :
  sf <> 0 ->
  exists s, ingests (new_Oximeter d sf None) calls = Ok s /\
            recorded (length calls) s /\ sfreq s = sf /\ dist s = int_fifth sf.
Proof.
  intros S.
  destruct (ingests_recorded calls 0 _ (new_Oximeter_recorded d sf S))
    as [s [E [R [F G]]]].
  exists s. split; [exact E|]. split; [exact R|]. now split.
Qed.

End Ingest.

(** ** The threshold as a real number *)

Lemma Q2R_inject_Z (z : Z) : Q2R (inject_Z z) = IZR z.
Proof. unfold Q2R, inject_Z. cbn. field. Qed.








Lemma Qsquare_nonneg (q : Q) : (0 <= q * q)%Q.
Proof. destruct q as [n d]. unfold Qle, Qmult. cbn. nia. Qed.

Lemma Qsum_squares_nonneg (m : Q) (l : list Z) :
  (0 <= Qsum (map (fun x => (inject_Z x - m) * (inject_Z x - m)) l))%Q.
Proof.
  induction l as [|a l IH]; [apply Qle_refl|].
  change (0 + 0 <= (inject_Z a - m) * (inject_Z a - m)
          + Qsum (map (fun x => (inject_Z x - m) * (inject_Z x - m)) l))%Q.
  apply Qplus_le_compat; [apply Qsquare_nonneg | exact IH].
Qed.

Lemma np_var_nonneg (l : list Z) (v : Q) : np_var l = Some v -> (0 <= v)%Q.
Proof.
  unfold np_var. destruct (np_mean l) as [m|] eqn:M; [|discriminate].
  intros [= <-]. destruct l as [|a l]; [discriminate|].
  apply Qle_shift_div_l.
  - unfold Qlt, len, inject_Z. cbn [Qnum Qden length]. lia.
  - rewrite Qmult_0_l. apply Qsum_squares_nonneg.
Qed.

(** The executable comparison decides the comparison of real numbers. *)
Lemma gt_npfloat_surd (x : Z) (m v : Q) :
  (0 <= v)%Q ->
  gt_npfloat x (surd m v) = true <-> (Q2R m + sqrt (Q2R v) < IZR x)%R.
Proof.
  intros V. apply Qle_Rle in V. rewrite RMicromega.Q2R_0 in V.
  unfold gt_npfloat. rewrite andb_true_iff, !Qltb_true_iff.
  set (a := (inject_Z x - m)%Q).
  assert (Ea : Q2R a = (IZR x - Q2R m)%R).
  { subst a. now rewrite Q2R_minus, Q2R_inject_Z. }
  split.
  - intros [P S]. apply Qlt_Rlt in P, S.
    rewrite RMicromega.Q2R_0 in P. rewrite Q2R_mult, Ea in S. rewrite Ea in P.
    assert (sqrt (Q2R v) < IZR x - Q2R m)%R; [|lra].
    rewrite <- (sqrt_square (IZR x - Q2R m)) by lra.
    apply sqrt_lt_1; nra.
  - intros L. pose proof (sqrt_pos (Q2R v)) as SP.
    pose proof (sqrt_sqrt (Q2R v) V) as SS.
    split; apply Rlt_Qlt.
    + rewrite RMicromega.Q2R_0, Ea. lra.
    + rewrite Q2R_mult, Ea. nra.
Qed.

Lemma gt_npfloat_exceeds (x : Z) (l : list Z) :
  gt_npfloat x (mean_plus_std l) = true <-> exceeds x (mean_plus_std l).
Proof.
  unfold exceeds, mean_plus_std.
  destruct (np_mean l) as [m|] eqn:M.
  - destruct (np_var l) as [v|] eqn:V;
      [|unfold np_var in V; now rewrite M in V].
    rewrite (gt_npfloat_surd x m v (np_var_nonneg _ _ V)). cbn. split.
    + intros L. eexists. split; [reflexivity | exact L].
    + intros [r [[= <-] L]]. exact L.
  - cbn. split; [discriminate | now intros [r [E _]]].
Qed.


(** ** Peak positions *)

Lemma binary_sum_count (p : list Z) :
  Forall (fun b => b = 0 \/ b = 1) p -> py_sum p = Z.of_nat (peak_count p).
Proof.
  unfold peak_count.
  induction 1 as [|b p [->| ->] F IH]; [reflexivity| |].
  - change (py_sum (0 :: p)) with (0 + py_sum p). rewrite IH.
    rewrite count_occ_cons_neq by discriminate. lia.
  - change (py_sum (1 :: p)) with (1 + py_sum p). rewrite IH.
    rewrite count_occ_cons_eq by reflexivity. lia.
Qed.

Lemma binary_unsnoc (p : list Z) (b : Z) :
  Forall (fun b => b = 0 \/ b = 1) (p ++ [b]) ->
  Forall (fun b => b = 0 \/ b = 1) p /\ (b = 0 \/ b = 1).
Proof.
  intros F. apply Forall_app in F. destruct F as [F G]. split; [exact F|].
  now inversion G.
Qed.

Lemma nth_error_snoc_old {A : Type} (l : list A) (x v : A) (k : nat) :
  nth_error l k = Some v -> nth_error (l ++ [x]) k = Some v.
Proof.
  intros E. rewrite nth_error_app1; [exact E|].
  apply nth_error_Some. congruence.
Qed.

Lemma nth_error_snoc_new {A : Type} (l : list A) (x : A) :
  nth_error (l ++ [x]) (length l) = Some x.
Proof. rewrite nth_error_app2, Nat.sub_diag by lia. reflexivity. Qed.

(** The last position returned by [np.where] is the last peak. *)
Lemma np_where_last (p : list Z) :
  Forall (fun b => b = 0 \/ b = 1) p ->
  forall (pre : list Z) (i : Z), np_where p = pre ++ [i] ->
  0 <= i /\ nth_error p (Z.to_nat i) = Some 1 /\
  forall k : nat, (Z.to_nat i < k)%nat -> nth_error p k <> Some 1.
Proof.
  unfold np_where.
  induction p as [|b p IH] using rev_ind; intros F pre i E.
  - now destruct pre.
  - apply binary_unsnoc in F. destruct F as [F [->| ->]];
      rewrite np_where_from_snoc in E; cbn [Z.eqb] in E.
    + rewrite app_nil_r in E. destruct (IH F pre i E) as [P [N L]].
      split; [exact P|]. split; [now apply nth_error_snoc_old|].
      intros k K G. apply nth_error_snoc in G.
      destruct G as [G|[_ G]]; [now apply (L k K) | discriminate].
    + apply app_inj_tail in E. destruct E as [_ <-].
      unfold len. rewrite Z.add_0_l, Nat2Z.id.
      split; [lia|]. split; [apply nth_error_snoc_new|].
      intros k K G. apply nth_error_snoc in G.
      destruct G as [G|[G _]]; [|lia].
      assert (k < length p)%nat by (apply nth_error_Some; congruence). lia.
Qed.

(** The last two positions returned by [np.where] are the last two peaks. *)
Lemma np_where_last_two (p : list Z) :
  Forall (fun b => b = 0 \/ b = 1) p ->
  forall (pre : list Z) (i j : Z), np_where p = pre ++ [i; j] ->
  0 <= i < j /\ last_two_peaks p (Z.to_nat i) (Z.to_nat j).
Proof.
  unfold np_where.
  induction p as [|b p IH] using rev_ind; intros F pre i j E.
  - now destruct pre.
  - apply binary_unsnoc in F. destruct F as [F [->| ->]];
      rewrite np_where_from_snoc in E; cbn [Z.eqb] in E.
    + rewrite app_nil_r in E.
      destruct (IH F pre i j E) as [P [L [Ni [Nj U]]]].
      split; [exact P|]. split; [exact L|].
      split; [now apply nth_error_snoc_old|].
      split; [now apply nth_error_snoc_old|].
      intros k K G. apply nth_error_snoc in G.
      destruct G as [G|[_ G]]; [now apply U | discriminate].
    + change (pre ++ [i; j]) with (pre ++ [i] ++ [j]) in E.
      rewrite app_assoc in E.
      apply app_inj_tail in E. destruct E as [E <-].
      destruct (np_where_last p F pre i E) as [P [N L]].
      assert (Z.to_nat i < length p)%nat by (apply nth_error_Some; congruence).
      unfold len. rewrite Z.add_0_l, Nat2Z.id.
      split; [lia|]. split; [exact H|].
      split; [now apply nth_error_snoc_old|].
      split; [apply nth_error_snoc_new|].
      intros k K G. apply nth_error_snoc in G.
      destruct G as [G|[G _]]; [now apply L in G | exact G].
Qed.

Lemma rr_entry_last_two (sf : Z) (p : list Z) :
  Forall (fun b => b = 0 \/ b = 1) p ->
  (3 <= peak_count p)%nat ->
  exists i j : nat,
    last_two_peaks p i j /\
    rr_entry sf p = (inject_Z (Z.of_nat j - Z.of_nat i) / inject_Z sf * 1000)%Q.
Proof.
  intros F C. unfold rr_entry.
  pose proof (binary_sum_count p F) as S.
  pose proof (binary_sum_where p 0 F) as W. fold (np_where p) in W.
  replace (py_sum p >? 2) with true by (symmetry; apply Z.gtb_lt; lia).
  destruct (snoc_cases (np_where p)) as [E|[l [j E]]].
  { rewrite E in W. cbn in W. lia. }
  destruct (snoc_cases l) as [->|[pre [i ->]]].
  { rewrite E in W. cbn in W. lia. }
  rewrite <- app_assoc in E. cbn [app] in E.
  destruct (np_where_last_two p F pre i j E) as [P L].
  rewrite E, np_diff_last_two.
  exists (Z.to_nat i), (Z.to_nat j). split; [exact L|].
  now rewrite !Z2Nat.id by lia.
Qed.

Lemma rr_entry_few_peaks (sf : Z) (p : list Z) :
  Forall (fun b => b = 0 \/ b = 1) p ->
  (peak_count p < 3)%nat -> rr_entry sf p = 0%Q.
Proof.
  intros F C. unfold rr_entry.
  pose proof (binary_sum_count p F) as S.
  replace (py_sum p >? 2) with false; [reflexivity|].
  symmetry. rewrite Z.gtb_ltb. apply Z.ltb_ge. lia.
Qed.

(** ** Theorems on the frame check *)

Lemma check_five (p0 p1 p2 p3 p4 : Z) (rest : list Z) :
  check (p0 :: p1 :: p2 :: p3 :: p4 :: rest) =
  (p0 =? 1) && ((p1 >=? 0) && (p1 <=? 255)) && ((p2 >=? 0) && (p2 <=? 255))
  && (p3 <=? 127) && (p4 =? (p0 + p1 + p2 + p3) mod 256).
Proof.
  unfold check, len.
  replace (Z.of_nat (length (p0 :: p1 :: p2 :: p3 :: p4 :: rest)) >=? 5)
    with true.
  - cbn [py_index nth_error slice_to firstn py_sum fold_right].
    replace (p0 + (p1 + (p2 + (p3 + 0)))) with (p0 + p1 + p2 + p3) by lia.
    destruct (p0 =? 1); cbn [andb]; [|reflexivity].
    destruct ((p1 >=? 0) && (p1 <=? 255)); cbn [andb]; [|reflexivity].
    destruct ((p2 >=? 0) && (p2 <=? 255)); cbn [andb]; [|reflexivity].
    destruct (p3 <=? 127); cbn [andb]; [|reflexivity].
    destruct (p4 =? (p0 + p1 + p2 + p3) mod 256); reflexivity.
  - symmetry. apply Z.geb_le. cbn [length]. lia.
Qed.

Lemma check_short (p : list Z) : (length p < 5)%nat -> check p = false.
Proof.
  intros H. unfold check, len.
  replace (Z.of_nat (length p) >=? 5) with false; [reflexivity|].
  symmetry. rewrite Z.geb_leb. apply Z.leb_gt. lia.
Qed.

(** C4: on a frame of exactly five elements, [check] answers true exactly
    when the status is 1, the two data bytes lie in 0..255, the flag byte is
    at most 127 and the last element is the sum of the first four modulo
    256. *)
Theorem check_five_bytes_iff (p0 p1 p2 p3 p4 : Z) :
  check [p0; p1; p2; p3; p4] = true <->
  p0 = 1 /\ (0 <= p1 <= 255) /\ (0 <= p2 <= 255) /\ p3 <= 127 /\
  p4 = (p0 + p1 + p2 + p3) mod 256.
Proof.
  rewrite check_five.
  rewrite !andb_true_iff, !Z.eqb_eq, !Z.geb_le, !Z.leb_le.
  tauto.
Qed.

(** C10, counterexample: a six-element input whose first five elements form
    a valid frame is accepted, although its length is not five. *)
Lemma check_accepts_six_elements :
  length [1; 0; 0; 0; 1; 99] <> 5%nat /\ check [1; 0; 0; 0; 1; 99] = true.
Proof. split; [discriminate | reflexivity]. Qed.

(** C10, amended: [check] answers false on every input of fewer than five
    elements; on an input of five or more it looks at the first five
    elements only, whatever follows them. *)
Theorem check_length_guard :
  (forall p : list Z, (length p < 5)%nat -> check p = false) /\
  (forall (p0 p1 p2 p3 p4 : Z) (rest : list Z),
      check (p0 :: p1 :: p2 :: p3 :: p4 :: rest) = check [p0; p1; p2; p3; p4]).
Proof.
  split.
  - exact check_short.
  - intros. now rewrite !check_five.
Qed.

Lemma check_length_guard_witness :
  check [1; 0; 0; 0] = false /\
  check [1; 2; 3; 4; 10; 7; 7] = check [1; 2; 3; 4; 10].
Proof.
  split.
  - apply (proj1 check_length_guard). simpl. lia.
  - apply (proj2 check_length_guard).
Defined.

(** ** Theorems on the recording *)

(** C1, counterexample: after one call on a new object the differential is
    still empty and the peaks vector already has two entries, so the series
    do not all have length 1. *)
Lemma one_ingest_series_differ :
  exists s : Oximeter SimSerial,
    ingests (new_Oximeter idle_port 75 None) [(5, 1)] = Ok s /\
    length (diff s) = 0%nat /\ length (peaks s) = 2%nat /\
    ~ all_series_length s 1.
Proof.
  eexists. split; [reflexivity|]. cbn.
  split; [reflexivity|]. split; [reflexivity|].
  intros [_ [_ [_ [E _]]]]. discriminate.
Qed.

(** C1, amended: on an object created without additional channels and with
    a non-zero sampling rate, every sequence of [n] calls of [add_paquet]
    returns, and afterwards the recording, the times, the threshold and the
    instantaneous RR series each have length [n], while the differential has
    length [n - 1] (0 when [n] is 0). *)
Theorem series_lengths_after_ingests {D : Type} (d : D) (sf : Z)
    (calls : list (Z * Z)) :
  sf <> 0 ->
  exists s : Oximeter D,
    ingests (new_Oximeter d sf None) calls = Ok s /\
    length (recording s) = length calls /\
    length (times s) = length calls /\
    length (threshold s) = length calls /\
    length (instant_rr s) = length calls /\
    length (diff s) = pred (length calls).
Proof.
  intros S. destruct (ingests_new d sf calls S) as [s [E [R _]]].
  exists s. destruct R. now repeat split.
Qed.

Lemma series_lengths_after_ingests_witness :
  exists s : Oximeter SimSerial,
    ingests (new_Oximeter idle_port 75 None) [(5, 1); (7, 1); (6, 1)] = Ok s /\
    length (recording s) = 3%nat /\
    length (times s) = 3%nat /\
    length (threshold s) = 3%nat /\
    length (instant_rr s) = 3%nat /\
    length (diff s) = 2%nat.
Proof.
  apply (series_lengths_after_ingests idle_port 75 [(5, 1); (7, 1); (6, 1)]).
  lia.
Defined.

(** With additional channels the very first call raises: the loop over the
    dict reaches a key, and a [str] has no [append]. *)
Lemma add_paquet_with_channels_raises {D : Type} (d : D) (sf k x w : Z) :
  exists s' : Oximeter D,
    add_paquet (new_Oximeter d sf (Some k)) x w = Raise AttributeError s' /\
    recording s' = [x] /\ times s' = [].
Proof. eexists. split; [reflexivity|]. now split. Qed.

(** C3: after any sequence of calls, two 1-entries of the peaks vector lie
    more than [dist] positions apart; and at the next call either a peak is
    registered, which needs [lag > dist] and leaves the lag at [-1 + 1], or
    0 is appended and the lag grows by exactly one. *)
Theorem registered_peaks_separated {D : Type} (d : D) (sf : Z)
    (calls : list (Z * Z)) (x w : Z) :
  sf <> 0 ->
  exists s s' : Oximeter D,
    ingests (new_Oximeter d sf None) calls = Ok s /\
    (forall i j : nat,
        (i < j)%nat ->
        nth_error (peaks s) i = Some 1 -> nth_error (peaks s) j = Some 1 ->
        dist s < Z.of_nat j - Z.of_nat i) /\
    add_paquet s x w = Ok s' /\
    ((py_last (peaks s') = Some 1 /\ dist s < lag s /\ lag s' = -1 + 1) \/
     (py_last (peaks s') = Some 0 /\ lag s' = lag s + 1)).
Proof.
  intros S. destruct (ingests_new d sf calls S) as [s [E [R _]]].
  destruct (add_paquet_post _ s x w R) as [s' [E' P]].
  exists s, s'. split; [exact E|]. split; [apply R|]. split; [exact E'|].
  destruct P. rewrite post_peaks0, post_lag0, py_last_app.
  destruct (registers s x w) eqn:G.
  - left. split; [reflexivity|]. split; [now apply registers_lag in G|reflexivity].
  - right. now split.
Qed.

Lemma registered_peaks_separated_witness :
  exists s s' : Oximeter SimSerial,
    ingests (new_Oximeter idle_port 5 None)
      [(0, 1); (0, 1); (0, 1); (0, 1); (9, 1)] = Ok s /\
    (forall i j : nat,
        (i < j)%nat ->
        nth_error (peaks s) i = Some 1 -> nth_error (peaks s) j = Some 1 ->
        dist s < Z.of_nat j - Z.of_nat i) /\
    add_paquet s 9 1 = Ok s' /\
    ((py_last (peaks s') = Some 1 /\ dist s < lag s /\ lag s' = -1 + 1) \/
     (py_last (peaks s') = Some 0 /\ lag s' = lag s + 1)).
Proof.
  apply (registered_peaks_separated idle_port 5
           [(0, 1); (0, 1); (0, 1); (0, 1); (9, 1)] 9 1).
  lia.
Defined.

Lemma py_last_last (l : list Z) (y : Z) : py_last l = Some y -> last l 0 = y.
Proof.
  intros E. destruct (snoc_cases l) as [->|[r [z ->]]]; [discriminate|].
  rewrite py_last_app in E. injection E as ->. apply last_last.
Qed.

Lemma sign_tests (d1 d0 : Z) :
  ((d1 =? 0) || negb (Bool.eqb (d1 >? 0) (d0 >? 0))) && (d0 >? 0) = true <->
  (d1 = 0 \/ Z.sgn d1 <> Z.sgn d0) /\ 0 < d0.
Proof.
  rewrite andb_true_iff, orb_true_iff, negb_true_iff, eqb_false_iff, Z.eqb_eq.
  rewrite !Z.gtb_ltb.
  destruct (0 <? d1) eqn:A; destruct (0 <? d0) eqn:B;
    rewrite ?Z.ltb_lt, ?Z.ltb_ge in *; split; intros [P Q]; try discriminate; try lia.
Qed.

(** C2: at every call at which two differential values exist, that is after
    at least two earlier calls, 1 is appended to the peaks vector and the lag
    set to -1 (then incremented, as at the end of every call) exactly when
    the value exceeds the threshold, the new differential is zero or
    differs in sign from the previous one, the previous differential is
    positive and the lag exceeds [dist]; otherwise 0 is appended and the lag
    grows by one. *)
Theorem peak_registered_iff {D : Type} (d : D) (sf : Z)
    (calls : list (Z * Z)) (x w : Z) :
  sf <> 0 -> (2 <= length calls)%nat ->
  exists (s s' : Oximeter D) (t : npfloat) (d1 d0 : Z),
    ingests (new_Oximeter d sf None) calls = Ok s /\
    add_paquet s x w = Ok s' /\
    py_last (threshold s') = Some t /\
    py_last (diff s') = Some d1 /\ py_last2 (diff s') = Some d0 /\
    let registered :=
      exceeds x t /\ (d1 = 0 \/ Z.sgn d1 <> Z.sgn d0) /\ 0 < d0 /\
      dist s < lag s in
    (registered -> peaks s' = peaks s ++ [1] /\ lag s' = -1 + 1) /\
    (~ registered -> peaks s' = peaks s ++ [0] /\ lag s' = lag s + 1).
Proof.
  intros S L. destruct (ingests_new d sf calls S) as [s [E [R _]]].
  destruct (add_paquet_post _ s x w R) as [s' [E' P]].
  pose proof (rec_diff _ _ R) as Ld. pose proof (rec_recording _ _ R) as Lr.
  destruct (snoc_cases (diff s)) as [Ed|[df [d0 Ed]]];
    [rewrite Ed in Ld; cbn in Ld; lia|].
  destruct (snoc_cases (recording s)) as [Er|[r [y Er]]];
    [rewrite Er in Lr; cbn in Lr; lia|].
  destruct P.
  assert (Hd : diff s' = diff s ++ [x - y]).
  { rewrite post_diff0, Er, last_last, Ed. now destruct df. }
  assert (Hp : forall b, peaks s' = peaks s ++ [b] <->
                         (if registers s x w then 1 else 0) = b).
  { intros b. rewrite post_peaks0, Ed. destruct df; cbn [app]; split; intros G;
      try (apply app_inv_head in G; congruence); now rewrite G. }
  exists s, s', (mean_plus_std (slice_from (- (w * sfreq s)) (recording s ++ [x]))),
    (x - y), d0.
  split; [exact E|]. split; [exact E'|].
  split; [rewrite post_threshold0; apply py_last_app|].
  split; [rewrite Hd; apply py_last_app|].
  split; [rewrite Hd, py_last2_app, Ed; apply py_last_app|].
  assert (G : registers s x w = true <->
              exceeds x (mean_plus_std
                           (slice_from (- (w * sfreq s)) (recording s ++ [x]))) /\
              (x - y = 0 \/ Z.sgn (x - y) <> Z.sgn d0) /\ 0 < d0 /\
              dist s < lag s).
  { assert (Ly : py_last (recording s) = Some y)
      by (rewrite Er; apply py_last_app).
    assert (Ld0 : py_last (diff s) = Some d0)
      by (rewrite Ed; apply py_last_app).
    unfold registers. rewrite Ly, Ld0.
    rewrite <- !andb_assoc, andb_true_iff, gt_npfloat_exceeds.
    rewrite andb_assoc, andb_true_iff, sign_tests, Z.gtb_ltb, Z.ltb_lt.
    tauto. }
  cbv zeta. rewrite <- G. rewrite post_lag0. split.
  - intros T. rewrite T. split; [apply Hp; now rewrite T | reflexivity].
  - intros N. apply not_true_is_false in N. rewrite N.
    split; [apply Hp; now rewrite N | reflexivity].
Qed.

Lemma peak_registered_iff_witness :
  exists (s s' : Oximeter SimSerial) (t : npfloat) (d1 d0 : Z),
    ingests (new_Oximeter idle_port 5 None)
      [(0, 1); (0, 1); (0, 1); (0, 1); (9, 1)] = Ok s /\
    add_paquet s 9 1 = Ok s' /\
    py_last (threshold s') = Some t /\
    py_last (diff s') = Some d1 /\ py_last2 (diff s') = Some d0 /\
    let registered :=
      exceeds 9 t /\ (d1 = 0 \/ Z.sgn d1 <> Z.sgn d0) /\ 0 < d0 /\
      dist s < lag s in
    (registered -> peaks s' = peaks s ++ [1] /\ lag s' = -1 + 1) /\
    (~ registered -> peaks s' = peaks s ++ [0] /\ lag s' = lag s + 1).
Proof.
  apply (peak_registered_iff idle_port 5
           [(0, 1); (0, 1); (0, 1); (0, 1); (9, 1)] 9 1).
  - lia.
  - simpl. lia.
Defined.

(** C6: at every call one entry is appended to the RR series: with at least
    three registered peaks it is the distance between the last two peak
    positions over the sampling rate, times 1000, and 0 otherwise; the series
    is as long as the recording and none of its entries is negative. *)
Theorem rr_interval_appended {D : Type} (d : D) (sf : Z)
    (calls : list (Z * Z)) (x w : Z) :
  0 < sf ->
  exists (s s' : Oximeter D) (rr : Q),
    ingests (new_Oximeter d sf None) calls = Ok s /\
    add_paquet s x w = Ok s' /\
    instant_rr s' = instant_rr s ++ [rr] /\
    ((3 <= peak_count (peaks s'))%nat ->
     exists i j : nat,
       last_two_peaks (peaks s') i j /\
       rr = (inject_Z (Z.of_nat j - Z.of_nat i) / inject_Z sf * 1000)%Q) /\
    ((peak_count (peaks s') < 3)%nat -> rr = 0%Q) /\
    length (instant_rr s') = length (recording s') /\
    Forall (fun q => (0 <= q)%Q) (instant_rr s').
Proof.
  intros S. assert (S0 : sf <> 0) by lia.
  destruct (ingests_new d sf calls S0) as [s [E [R [F _]]]].
  destruct (add_paquet_post _ s x w R) as [s' [E' P]].
  pose proof (ingest_post_recorded _ _ _ _ _ R P) as R'.
  exists s, s', (rr_entry sf (peaks s')).
  split; [exact E|]. split; [exact E'|].
  split; [rewrite <- F; apply P|].
  split; [apply rr_entry_last_two, R'|].
  split; [apply rr_entry_few_peaks, R'|].
  split.
  - now rewrite (rec_rr _ _ R'), (rec_recording _ _ R').
  - apply (rec_rr_nonneg _ _ R'). rewrite (post_sfreq _ _ _ _ P). lia.
Qed.

Lemma rr_interval_appended_witness :
  exists (s s' : Oximeter SimSerial) (rr : Q),
    ingests (new_Oximeter idle_port 5 None)
      [(0, 1); (0, 1); (0, 1); (0, 1); (9, 1); (9, 1); (0, 1)] = Ok s /\
    add_paquet s 0 1 = Ok s' /\
    instant_rr s' = instant_rr s ++ [rr] /\
    ((3 <= peak_count (peaks s'))%nat ->
     exists i j : nat,
       last_two_peaks (peaks s') i j /\
       rr = (inject_Z (Z.of_nat j - Z.of_nat i) / inject_Z 5 * 1000)%Q) /\
    ((peak_count (peaks s') < 3)%nat -> rr = 0%Q) /\
    length (instant_rr s') = length (recording s') /\
    Forall (fun q => (0 <= q)%Q) (instant_rr s').
Proof.
  apply (rr_interval_appended idle_port 5
           [(0, 1); (0, 1); (0, 1); (0, 1); (9, 1); (9, 1); (0, 1)] 0 1).
  lia.
Defined.



(** ** Theorems on the device loops *)

(** Whatever the device, an invalid frame read with [stop] false raises
    [AttributeError] on an object whose [triggers] was never assigned. *)
Lemma readInWaiting_invalid_frame {D : Type} `{Serial D} (s : Oximeter D)
    (fuel : nat) (out : list string) (paquet : list Z) (d' : D) :
  inWaiting (serial s) >= 5 -> read 5 (serial s) = (paquet, d') ->
  check paquet = false -> triggers s = None ->
  readInWaiting (S fuel) s false out =
  (out ++ ["Synch error"%string], Raise AttributeError (set_serial d' s)).
Proof.
  intros W R C T. cbn [readInWaiting].
  replace (inWaiting (serial s) >=? 5) with true
    by (symmetry; apply Z.geb_le; lia).
  rewrite R, C. unfold mark_trigger. cbn [triggers set_serial]. now rewrite T.
Qed.

(** When [setup] returns, the object is a new one with the default
    configuration, apart from the port and a [triggers] attribute assigned
    from outside. *)
Lemma setup_result {D : Type} `{Serial D} (fuel : nat) (s s' : Oximeter D) :
  setup fuel s = Ok s' ->
  s' = set_triggers (triggers s) (new_Oximeter (serial s') default_sfreq None).
Proof.
  unfold setup. destruct (find_start fuel _) as [[|] d]; [|discriminate].
  now intros [= <-].
Qed.

(** C8, evaluated on the code: draining a port whose first frame has a wrong
    checksum, with [stop] false, prints the error and then raises
    [AttributeError], because no [triggers] attribute exists; the search for
    the next frame is never started. *)
Theorem readInWaiting_corrupted_frame_raises :
  check [1; 80; 120; 0; 202] = false /\
  exists s' : Oximeter SimSerial,
    readInWaiting 3 (new_Oximeter corrupted_port 75 None) false [] =
    (["Synch error"%string], Raise AttributeError s').
Proof. split; [vm_compute; reflexivity|]. eexists. vm_compute. reflexivity. Qed.

(** C9, evaluated on the code: [setup] on an object created with a sampling
    rate of 100 and additional channels empties every series and resets the
    lag, but also puts the sampling rate back to 75, [dist] to 15 and removes
    the channels. *)
Theorem setup_reverts_configuration :
  let s := new_Oximeter corrupted_port 100 (Some 2) in
  (sfreq s = 100 /\ dist s = 20 /\ channels s <> None) /\
  exists s' : Oximeter SimSerial,
    setup 1 s = Ok s' /\
    (recording s' = [] /\ times s' = [] /\ threshold s' = [] /\
     diff s' = [] /\ peaks s' = [] /\ instant_rr s' = [] /\ lag s' = 0) /\
    sfreq s' = 75 /\ dist s' = 15 /\ channels s' = None.
Proof.
  cbv zeta. split.
  - split; [reflexivity|]. split; [reflexivity | discriminate].
  - eexists. split; [vm_compute; reflexivity|]. cbn. now repeat split.
Qed.

(** Three flat-topped beats at 5 Hz: each is registered one position after
    its second top sample, and the third yields an RR interval of 1000 ms. *)
Example plateau_wave_peaks :
  exists s : Oximeter SimSerial,
    ingests (new_Oximeter idle_port 5 None) plateau_wave = Ok s /\
    peaks s = [0; 0; 0; 0; 0; 0; 1; 0; 0; 0; 0; 0; 1; 0; 0; 0; 0; 1; 0; 0] /\
    map Qred (instant_rr s) =
    [0; 0; 0; 0; 0; 0; 0; 0; 0; 0; 0; 0; 0; 0; 0; 0; 1000; 1000; 1000]%Q /\
    lag s = 2.
Proof.
  eexists. split; [vm_compute; reflexivity|].
  vm_compute. now repeat split.
Qed.

(** ** More on the recording: what a session keeps *)

Section Traces.
Context {D : Type}.
Implicit Types s : Oximeter D.


Lemma ingests_app s (calls calls' : list (Z * Z)) :
  ingests s (calls ++ calls') = ingests s calls >>= (fun s1 => ingests s1 calls').
Proof.
  revert s. induction calls as [|[x w] calls IH]; intros s; [reflexivity|].
  cbn [app ingests]. destruct (add_paquet s x w) as [s1| |]; cbn [and_then];
    [apply IH | reflexivity | reflexivity].
Qed.

Lemma ingests_snoc s (calls : list (Z * Z)) (x w : Z) :
  ingests s (calls ++ [(x, w)]) =
  ingests s calls >>= (fun s1 => add_paquet s1 x w).
Proof.
  rewrite ingests_app. destruct (ingests s calls) as [s1| |]; cbn;
    [|reflexivity|reflexivity].
  now destruct (add_paquet s1 x w).
Qed.

Lemma np_diff_snoc (l : list Z) (y x : Z) :
  np_diff ((l ++ [y]) ++ [x]) = np_diff (l ++ [y]) ++ [x - y].
Proof.
  induction l as [|a [|b l] IH]; try reflexivity.
  change (np_diff (a :: b :: (l ++ [y]) ++ [x]) =
          np_diff (a :: b :: l ++ [y]) ++ [x - y]).
  change (np_diff (a :: b :: (l ++ [y]) ++ [x]))
    with ((b - a) :: np_diff (((b :: l) ++ [y]) ++ [x])).
  now rewrite IH.
Qed.

Lemma np_diff_nth (l : list Z) : forall (k : nat) (a b : Z),
  nth_error l k = Some a -> nth_error l (S k) = Some b ->
  nth_error (np_diff l) k = Some (b - a).
Proof.
  induction l as [|u [|v l] IH]; intros k a b Ea Eb.
  - now destruct k.
  - destruct k; cbn in Eb; [discriminate | now destruct k].
  - change (np_diff (u :: v :: l)) with ((v - u) :: np_diff (v :: l)).
    destruct k as [|k].
    + cbn in *. congruence.
    + cbn [nth_error] in *. now apply IH.
Qed.

Lemma registers_diff s (x w : Z) : registers s x w = true -> diff s <> [].
Proof.
  unfold registers. intros E Hd. rewrite Hd in E.
  destruct (py_last (recording s)); discriminate.
Qed.

(** Where the 1-entries of the peaks vector come from. *)
Lemma post_peaks_cases (n : nat) s (x w : Z) s' (k : nat) :
  recorded n s -> ingest_post s x w s' ->
  nth_error (peaks s') k = Some 1 ->
  nth_error (peaks s) k = Some 1 \/
  (k = S n /\ registers s x w = true /\ peaks s' = peaks s ++ [1]).
Proof.
  intros R P E. rewrite (post_peaks _ _ _ _ P) in E.
  apply nth_error_snoc in E. destruct E as [E|[-> E]].
  - left. destruct (diff s); [|exact E].
    now apply nth_error_repeat0 in E.
  - destruct (registers s x w) eqn:G; [|discriminate].
    pose proof (registers_diff _ _ _ G) as N.
    pose proof (rec_diff _ _ R) as Ld. pose proof (rec_peaks _ _ R) as Lp.
    right. rewrite (post_peaks _ _ _ _ P), G.
    destruct (diff s); [contradiction|]. cbn in Ld.
    destruct n; [discriminate|]. now rewrite Lp.
Qed.

Lemma post_peaks_zero (n : nat) s (x w : Z) s' :
  recorded n s -> ingest_post s x w s' -> registers s x w = false ->
  Forall (fun b => b = 0) (peaks s') ->
  peaks s' = (match diff s with
              | [] => repeat 0 (S (length (recording s)))
              | _ :: _ => peaks s
              end) ++ [0].
Proof. intros R P G _. now rewrite (post_peaks _ _ _ _ P), G. Qed.

Lemma repeat_snoc {A : Type} (a : A) (k : nat) :
  repeat a (S k) = repeat a k ++ [a].
Proof. induction k; cbn in *; [reflexivity | now rewrite <- IHk]. Qed.

Lemma tail_is_peak (p pre : list Z) (b : Z) (k : nat) :
  p ++ [b] = pre ++ 1 :: repeat 0 k ->
  (b = 1 /\ k = 0%nat /\ p = pre) \/
  (b = 0 /\ exists k', k = S k' /\ p = pre ++ 1 :: repeat 0 k').
Proof.
  intros E. destruct k as [|k].
  - left. change (pre ++ [1]) with (pre ++ [1]) in E. cbn [repeat] in E.
    apply app_inj_tail in E. destruct E as [-> ->]. auto.
  - right. rewrite repeat_snoc in E.
    change (pre ++ 1 :: repeat 0 k ++ [0])
      with (pre ++ (1 :: repeat 0 k) ++ [0]) in E.
    rewrite app_assoc in E. apply app_inj_tail in E. destruct E as [-> ->].
    eauto.
Qed.

Lemma all_zero_no_peak (m : nat) (pre : list Z) (k : nat) :
  repeat 0 m <> pre ++ 1 :: repeat 0 k.
Proof.
  intros E. assert (I : In 1 (repeat 0 m)).
  { rewrite E. apply in_or_app. right. now left. }
  apply repeat_spec in I. discriminate.
Qed.

Lemma peak_count_snoc (p : list Z) (b : Z) :
  (peak_count p <= peak_count (p ++ [b]))%nat.
Proof. unfold peak_count. rewrite count_occ_app. lia. Qed.

Lemma traced_new (d : D) (sf : Z) : traced [] (new_Oximeter d sf None).
Proof.
  constructor; cbn.
  - reflexivity.
  - reflexivity.
  - constructor.
  - lia.
  - intros k E. now destruct k.
  - reflexivity.
  - intros pre k E. now destruct pre.
  - constructor.
  - intros k E. now destruct k.
Qed.
End Traces.

Section Traces2.
Context {D : Type}.
Implicit Types s : Oximeter D.

Lemma early_peaks_zero (calls : list (Z * Z)) s :
  recorded (length calls) s -> traced calls s -> diff s = [] ->
  Forall (fun b => b = 0) (peaks s).
Proof.
  intros R T Hd. apply Forall_forall. intros b I.
  pose proof (rec_binary _ _ R) as B. rewrite Forall_forall in B.
  destruct (B b I) as [E|E]; [exact E|]. subst b.
  apply In_nth_error in I. destruct I as [k I].
  destruct (tr_first_peak _ _ T k I) as [K _].
  assert (k < length (peaks s))%nat by (apply nth_error_Some; congruence).
  pose proof (rec_peaks _ _ R) as Lp. pose proof (rec_diff _ _ R) as Ld.
  rewrite Hd in Ld. cbn in Ld. destruct (length calls) as [|[|m]]; cbn in *; lia.
Qed.

Lemma Qeq_zero_div (q : Q) : (0 == inject_Z 0 / q)%Q.
Proof. unfold Qeq, Qdiv, Qmult. cbn. lia. Qed.

Lemma registers_shape s (x w : Z) :
  registers s x w = true ->
  exists y d0 : Z,
    py_last (recording s) = Some y /\ py_last (diff s) = Some d0 /\
    exceeds x (mean_plus_std
                 (slice_from (- (w * sfreq s)) (recording s ++ [x]))) /\
    x <= y /\ 0 < d0 /\ dist s < lag s.
Proof.
  unfold registers.
  destruct (py_last (recording s)) as [y|]; [|discriminate].
  destruct (py_last (diff s)) as [d0|]; [|discriminate].
  rewrite <- !andb_assoc, andb_true_iff, gt_npfloat_exceeds.
  rewrite andb_assoc, andb_true_iff, sign_tests, Z.gtb_ltb, Z.ltb_lt.
  intros [X [[S P] L]]. exists y, d0. repeat split; try assumption. lia.
Qed.

Lemma traced_step (calls : list (Z * Z)) s (x w : Z) s' :
  recorded (length calls) s -> traced calls s -> ingest_post s x w s' ->
  traced (calls ++ [(x, w)]) s'.
Proof.
  intros R T P.
  pose proof (ingest_post_recorded _ _ _ _ _ R P) as R'.
  pose proof (rec_diff _ _ R) as Ld. pose proof (rec_recording _ _ R) as Lr.
  pose proof (rec_peaks _ _ R) as Lp.
  assert (Hn : length (calls ++ [(x, w)]) = S (length calls))
    by (rewrite length_app; cbn; lia).
  constructor.
  - rewrite (post_recording _ _ _ _ P), (tr_recording _ _ T), map_app.
    reflexivity.
  - rewrite (post_diff _ _ _ _ P), (post_recording _ _ _ _ P).
    destruct (diff s) as [|d ds] eqn:Ed; [reflexivity|].
    rewrite <- Ed, (tr_diff _ _ T).
    destruct (snoc_cases (recording s)) as [E|[r [y E]]].
    + rewrite (tr_diff _ _ T), E in Ed. discriminate.
    + rewrite E, last_last. symmetry. apply np_diff_snoc.
  - rewrite (post_times _ _ _ _ P), (post_sfreq _ _ _ _ P), Hn, seq_S, map_app.
    apply Forall2_app; [apply (tr_times _ _ T)|].
    constructor; [|constructor]. cbn [Nat.add].
    pose proof (rec_times _ _ R) as Lt.
    destruct (times s) as [|t0 tm] eqn:Et.
    + cbn in Lt. rewrite <- Lt. apply Qeq_zero_div.
    + unfold len. rewrite Lt. apply Qeq_refl.
  - rewrite (post_lag _ _ _ _ P), Hn. pose proof (tr_lag_le _ _ T).
    destruct (registers s x w); lia.
  - intros k E. rewrite (post_dist _ _ _ _ P).
    destruct (post_peaks_cases _ _ _ _ _ _ R P E) as [E'|[-> [G _]]].
    + now apply (tr_first_peak _ _ T).
    + destruct (registers_shape _ _ _ G) as [y [d0 [_ [Ed [_ [_ [_ L]]]]]]].
      pose proof (tr_lag_le _ _ T).
      destruct (diff s); [discriminate|]. cbn in Ld. lia.
  - intros F. rewrite Hn, (post_lag _ _ _ _ P).
    rewrite (post_peaks _ _ _ _ P) in F. apply Forall_app in F.
    destruct F as [F G]. inversion G as [|? ? G0 _]; subst.
    destruct (registers s x w); [discriminate|].
    rewrite (tr_lag_no_peak _ _ T); [lia|].
    destruct (diff s) eqn:Ed; [|exact F].
    now apply (early_peaks_zero calls).
  - intros pre k E. rewrite (post_lag _ _ _ _ P).
    rewrite (post_peaks _ _ _ _ P) in E. apply tail_is_peak in E.
    destruct E as [[B [-> _]]|[B [k' [-> E]]]].
    + destruct (registers s x w); [reflexivity | discriminate].
    + destruct (registers s x w); [discriminate|].
      destruct (diff s); [now apply all_zero_no_peak in E|].
      rewrite (tr_lag_since_peak _ _ T pre k' E). lia.
  - intros C. rewrite (post_rr _ _ _ _ P). apply Forall_app. split.
    + apply (tr_rr_zero _ _ T).
      destruct (diff s) eqn:Ed.
      * pose proof (early_peaks_zero calls s R T Ed) as Z0.
        unfold peak_count. rewrite (proj1 (count_occ_not_In Z.eq_dec _ 1)); [lia|].
        intros I. rewrite Forall_forall in Z0. now apply Z0 in I.
      * rewrite (post_peaks _ _ _ _ P), Ed in C.
        pose proof (peak_count_snoc (peaks s) (if registers s x w then 1 else 0)).
        lia.
    + constructor; [|constructor].
      rewrite <- (post_sfreq _ _ _ _ P).
      apply rr_entry_few_peaks; [apply R' | exact C].
  - intros k E.
    destruct (post_peaks_cases _ _ _ _ _ _ R P E) as [E'|[-> [G _]]].
    + destruct (tr_local_max _ _ T k E') as [a [b [c [t [Ha [Hb [Hc [Ht Q]]]]]]]].
      exists a, b, c, t.
      rewrite (post_recording _ _ _ _ P), (post_threshold _ _ _ _ P).
      repeat split; try (now apply nth_error_snoc_old); apply Q.
    + destruct (registers_shape _ _ _ G) as [y [d0 [Ey [Ed [X [Lx [Ld0 _]]]]]]].
      destruct (snoc_cases (recording s)) as [E0|[r [y' E0]]];
        [rewrite E0 in Ey; discriminate|].
      rewrite E0, py_last_app in Ey. injection Ey as ->.
      destruct (snoc_cases r) as [E1|[r' [a E1]]].
      { subst r. rewrite (tr_diff _ _ T), E0 in Ed. discriminate. }
      subst r. rewrite <- app_assoc in E0. cbn [app] in E0.
      rewrite (tr_diff _ _ T), E0, np_diff_last_two in Ed. injection Ed as <-.
      assert (Lr' : length r' = (length calls - 2)%nat).
      { rewrite E0, length_app in Lr. cbn in Lr. lia. }
      assert (Lc : (2 <= length calls)%nat).
      { rewrite E0, length_app in Lr. cbn in Lr. lia. }
      exists a, y, x,
        (mean_plus_std (slice_from (- (w * sfreq s)) (recording s ++ [x]))).
      rewrite (post_recording _ _ _ _ P), (post_threshold _ _ _ _ P).
      replace (S (length calls) - 3)%nat with (length r') by lia.
      replace (S (length calls) - 2)%nat with (S (length r')) by lia.
      replace (S (length calls) - 1)%nat with (length (recording s)) by lia.
      split.
      { rewrite E0, <- app_assoc. rewrite nth_error_app2, Nat.sub_diag by lia.
        reflexivity. }
      split.
      { rewrite E0, <- app_assoc. rewrite nth_error_app2 by lia.
        replace (S (length r') - length r')%nat with 1%nat by lia. reflexivity. }
      split; [apply nth_error_snoc_new|].
      split.
      { rewrite Lr, <- (rec_threshold _ _ R). apply nth_error_snoc_new. }
      split; [lia|]. split; [exact Lx | exact X].
Qed.

(** From a new object without channels, any sequence of calls returns, in
    a state that keeps both invariants. *)
Lemma ingests_traced (d : D) (sf : Z) (calls : list (Z * Z)) :
  sf <> 0 ->
  exists s, ingests (new_Oximeter d sf None) calls = Ok s /\
            recorded (length calls) s /\ traced calls s /\
            sfreq s = sf /\ dist s = int_fifth sf.
Proof.
  intros S. induction calls as [|[x w] calls IH] using rev_ind.
  - exists (new_Oximeter d sf None). split; [reflexivity|].
    split; [now apply new_Oximeter_recorded|]. split; [apply traced_new|].
    now split.
  - destruct IH as [s [E [R [T [F G]]]]].
    destruct (add_paquet_post _ s x w R) as [s' [E' P]].
    exists s'. split; [rewrite ingests_snoc, E; exact E'|].
    split.
    { rewrite length_app. cbn [length]. rewrite Nat.add_1_r.
      exact (ingest_post_recorded _ _ _ _ _ R P). }
    split; [exact (traced_step _ _ _ _ _ R T P)|].
    split; [rewrite (post_sfreq _ _ _ _ P); exact F
           | rewrite (post_dist _ _ _ _ P); exact G].
Qed.
End Traces2.

(** X2: after any sequence of calls the recording holds the samples in the
    order of the calls, and the differential is their first difference:
    entry [k] is sample [k + 1] minus sample [k], one entry fewer than the
    samples. *)
Theorem diff_is_first_difference {D : Type} (d : D) (sf : Z)
    (calls : list (Z * Z)) :
  sf <> 0 ->
  exists s : Oximeter D,
    ingests (new_Oximeter d sf None) calls = Ok s /\
    recording s = map fst calls /\
    length (diff s) = pred (length calls) /\
    forall (k : nat) (a b : Z),
      nth_error (map fst calls) k = Some a ->
      nth_error (map fst calls) (S k) = Some b ->
      nth_error (diff s) k = Some (b - a).
Proof.
  intros S. destruct (ingests_traced d sf calls S) as [s [E [R [T _]]]].
  exists s. split; [exact E|]. split; [apply T|].
  split; [apply R|].
  intros k a b Ha Hb. rewrite (tr_diff _ _ T), (tr_recording _ _ T).
  now apply np_diff_nth.
Qed.

Lemma diff_is_first_difference_witness :
  exists s : Oximeter SimSerial,
    ingests (new_Oximeter idle_port 75 None) [(5, 1); (7, 1); (6, 1)] = Ok s /\
    recording s = map fst [(5, 1); (7, 1); (6, 1)] /\
    length (diff s) = pred (length [(5, 1); (7, 1); (6, 1)]) /\
    forall (k : nat) (a b : Z),
      nth_error (map fst [(5, 1); (7, 1); (6, 1)]) k = Some a ->
      nth_error (map fst [(5, 1); (7, 1); (6, 1)]) (S k) = Some b ->
      nth_error (diff s) k = Some (b - a).
Proof.
  apply (diff_is_first_difference idle_port 75 [(5, 1); (7, 1); (6, 1)]). lia.
Defined.

Lemma Forall2_nth_error_left {A B : Type} (R : A -> B -> Prop)
    (l : list A) (l' : list B) :
  Forall2 R l l' ->
  forall (k : nat) (a : A), nth_error l k = Some a ->
  exists b : B, nth_error l' k = Some b /\ R a b.
Proof.
  induction 1 as [|a b l l' Rab F IH]; intros k x E.
  - now destruct k.
  - destruct k as [|k]; cbn in *.
    + injection E as <-. eauto.
    + now apply IH.
Qed.

(** X3: after any sequence of calls, entry [k] of the times vector is
    [k / sfreq]. *)
Theorem times_are_index_over_sfreq {D : Type} (d : D) (sf : Z)
    (calls : list (Z * Z)) :
  sf <> 0 ->
  exists s : Oximeter D,
    ingests (new_Oximeter d sf None) calls = Ok s /\
    length (times s) = length calls /\
    forall (k : nat) (t : Q),
      nth_error (times s) k = Some t ->
      (t == inject_Z (Z.of_nat k) / inject_Z sf)%Q.
Proof.
  intros S. destruct (ingests_traced d sf calls S) as [s [E [R [T [F _]]]]].
  exists s. split; [exact E|]. split; [apply R|].
  intros k t Ek. pose proof (tr_times _ _ T) as A. rewrite F in A.
  destruct (Forall2_nth_error_left _ _ _ A k t Ek) as [q [Eq Q]].
  rewrite nth_error_map in Eq.
  destruct (nth_error (seq 0 (length calls)) k) as [j|] eqn:Ej; [|discriminate].
  assert (j = k).
  { assert (K : (k < length (seq 0 (length calls)))%nat)
      by (apply nth_error_Some; congruence).
    rewrite length_seq in K.
    apply (nth_error_nth _ _ 0%nat) in Ej. rewrite seq_nth in Ej by exact K.
    lia. }
  subst j. cbn in Eq. injection Eq as <-. exact Q.
Qed.

Lemma times_are_index_over_sfreq_witness :
  exists s : Oximeter SimSerial,
    ingests (new_Oximeter idle_port 75 None) [(5, 1); (7, 1); (6, 1)] = Ok s /\
    length (times s) = length [(5, 1); (7, 1); (6, 1)] /\
    forall (k : nat) (t : Q),
      nth_error (times s) k = Some t ->
      (t == inject_Z (Z.of_nat k) / inject_Z 75)%Q.
Proof.
  apply (times_are_index_over_sfreq idle_port 75 [(5, 1); (7, 1); (6, 1)]). lia.
Defined.

(** X4: after at least one call the peaks vector is one entry longer than
    the recording, and each of its entries is 0 or 1. *)
Theorem peaks_one_longer_than_recording {D : Type} (d : D) (sf : Z)
    (calls : list (Z * Z)) :
  sf <> 0 -> calls <> [] ->
  exists s : Oximeter D,
    ingests (new_Oximeter d sf None) calls = Ok s /\
    length (peaks s) = S (length (recording s)) /\
    Forall (fun b => b = 0 \/ b = 1) (peaks s).
Proof.
  intros S N. destruct (ingests_traced d sf calls S) as [s [E [R _]]].
  exists s. split; [exact E|]. split; [|apply R].
  rewrite (rec_peaks _ _ R), (rec_recording _ _ R).
  destruct calls; [contradiction | reflexivity].
Qed.

Lemma peaks_one_longer_than_recording_witness :
  exists s : Oximeter SimSerial,
    ingests (new_Oximeter idle_port 75 None) [(5, 1); (7, 1); (6, 1)] = Ok s /\
    length (peaks s) = S (length (recording s)) /\
    Forall (fun b => b = 0 \/ b = 1) (peaks s).
Proof.
  apply (peaks_one_longer_than_recording idle_port 75
           [(5, 1); (7, 1); (6, 1)]); [lia | discriminate].
Defined.

(** X5: no peak is flagged at the start of a session: a 1-entry of the
    peaks vector lies at a position of at least 3 and beyond [dist + 1],
    since the lag starts at 0 as if a peak had just occurred. *)
Theorem no_peak_at_session_start {D : Type} (d : D) (sf : Z)
    (calls : list (Z * Z)) :
  sf <> 0 ->
  exists s : Oximeter D,
    ingests (new_Oximeter d sf None) calls = Ok s /\
    forall k : nat, nth_error (peaks s) k = Some 1 ->
                    (3 <= k)%nat /\ int_fifth sf + 1 < Z.of_nat k.
Proof.
  intros S. destruct (ingests_traced d sf calls S) as [s [E [R [T [_ G]]]]].
  exists s. split; [exact E|]. intros k Ek. rewrite <- G.
  now apply (tr_first_peak _ _ T).
Qed.

Lemma no_peak_at_session_start_witness :
  exists s : Oximeter SimSerial,
    ingests (new_Oximeter idle_port 5 None) plateau_wave = Ok s /\
    forall k : nat, nth_error (peaks s) k = Some 1 ->
                    (3 <= k)%nat /\ int_fifth 5 + 1 < Z.of_nat k.
Proof. apply (no_peak_at_session_start idle_port 5 plateau_wave). lia. Defined.

(** X6: the lag counts the calls since the last flagged peak: it is the
    number of zeros after the last 1 of the peaks vector, and the number of
    calls when no peak was flagged. *)
Theorem lag_counts_calls_since_last_peak {D : Type} (d : D) (sf : Z)
    (calls : list (Z * Z)) :
  sf <> 0 ->
  exists s : Oximeter D,
    ingests (new_Oximeter d sf None) calls = Ok s /\
    (Forall (fun b => b = 0) (peaks s) -> lag s = Z.of_nat (length calls)) /\
    (forall (pre : list Z) (k : nat),
        peaks s = pre ++ 1 :: repeat 0 k -> lag s = Z.of_nat k).
Proof.
  intros S. destruct (ingests_traced d sf calls S) as [s [E [R [T _]]]].
  exists s. split; [exact E|]. split; [apply T | apply T].
Qed.

Lemma lag_counts_calls_since_last_peak_witness :
  exists s : Oximeter SimSerial,
    ingests (new_Oximeter idle_port 5 None) plateau_wave = Ok s /\
    (Forall (fun b => b = 0) (peaks s) ->
     lag s = Z.of_nat (length plateau_wave)) /\
    (forall (pre : list Z) (k : nat),
        peaks s = pre ++ 1 :: repeat 0 k -> lag s = Z.of_nat k).
Proof.
  apply (lag_counts_calls_since_last_peak idle_port 5 plateau_wave). lia.
Defined.

(** X7: as long as fewer than three peaks are flagged, every entry of the
    RR series is 0. *)
Theorem rr_zero_below_three_peaks {D : Type} (d : D) (sf : Z)
    (calls : list (Z * Z)) :
  sf <> 0 ->
  exists s : Oximeter D,
    ingests (new_Oximeter d sf None) calls = Ok s /\
    ((peak_count (peaks s) < 3)%nat ->
     Forall (fun q => q = 0%Q) (instant_rr s)).
Proof.
  intros S. destruct (ingests_traced d sf calls S) as [s [E [R [T _]]]].
  exists s. split; [exact E | apply T].
Qed.

Lemma rr_zero_below_three_peaks_witness :
  exists s : Oximeter SimSerial,
    ingests (new_Oximeter idle_port 5 None)
      [(0, 1); (0, 1); (0, 1); (0, 1); (9, 1); (9, 1); (0, 1)] = Ok s /\
    ((peak_count (peaks s) < 3)%nat ->
     Forall (fun q => q = 0%Q) (instant_rr s)).
Proof.
  apply (rr_zero_below_three_peaks idle_port 5
           [(0, 1); (0, 1); (0, 1); (0, 1); (9, 1); (9, 1); (0, 1)]). lia.
Defined.

(** X8: a 1 at position [k] of the peaks vector marks a local maximum one
    sample earlier: sample [k - 2] is greater than sample [k - 3], sample
    [k - 1] is not greater than sample [k - 2], and sample [k - 1] exceeds
    its own threshold. *)
Theorem peak_flag_follows_local_maximum {D : Type} (d : D) (sf : Z)
    (calls : list (Z * Z)) :
  sf <> 0 ->
  exists s : Oximeter D,
    ingests (new_Oximeter d sf None) calls = Ok s /\
    forall k : nat, nth_error (peaks s) k = Some 1 ->
      exists (a b c : Z) (t : npfloat),
        nth_error (map fst calls) (k - 3) = Some a /\
        nth_error (map fst calls) (k - 2) = Some b /\
        nth_error (map fst calls) (k - 1) = Some c /\
        nth_error (threshold s) (k - 1) = Some t /\
        a < b /\ c <= b /\ exceeds c t.
Proof.
  intros S. destruct (ingests_traced d sf calls S) as [s [E [R [T _]]]].
  exists s. split; [exact E|]. intros k Ek.
  rewrite <- (tr_recording _ _ T). now apply (tr_local_max _ _ T).
Qed.

Lemma peak_flag_follows_local_maximum_witness :
  exists s : Oximeter SimSerial,
    ingests (new_Oximeter idle_port 5 None) plateau_wave = Ok s /\
    forall k : nat, nth_error (peaks s) k = Some 1 ->
      exists (a b c : Z) (t : npfloat),
        nth_error (map fst plateau_wave) (k - 3) = Some a /\
        nth_error (map fst plateau_wave) (k - 2) = Some b /\
        nth_error (map fst plateau_wave) (k - 1) = Some c /\
        nth_error (threshold s) (k - 1) = Some t /\
        a < b /\ c <= b /\ exceeds c t.
Proof.
  apply (peak_flag_follows_local_maximum idle_port 5 plateau_wave). lia.
Defined.

(** ** [add_paquet] on any object *)

Section Frame.
Context {D : Type}.
Implicit Types s : Oximeter D.

Lemma fold_key_append_raise (keys : list string) (e : exn) s :
  fold_left (fun r ch => r >>= key_append ch 0) keys (Raise e s) = Raise e s.
Proof. induction keys as [|k keys IH]; cbn; [reflexivity | exact IH]. Qed.

Lemma add_zero_to_channels_cases s :
  add_zero_to_channels s =
  match channels s with
  | Some (_ :: _) => Raise AttributeError s
  | _ => Ok s
  end.
Proof.
  unfold add_zero_to_channels. destruct (channels s) as [[|c chs]|];
    try reflexivity.
  cbn. apply fold_key_append_raise.
Qed.

Lemma keeps_refl s : keeps s s.
Proof. unfold keeps, same_setting. now repeat split. Qed.

Lemma keeps_trans s s1 s2 : keeps s s1 -> keeps s1 s2 -> keeps s s2.
Proof.
  unfold keeps, same_setting.
  intros [A [B [C [E [F G]]]]] [A' [B' [C' [E' [F' G']]]]].
  repeat split; congruence.
Qed.

Ltac break_matches :=
  repeat match goal with
         | |- context [match ?x with _ => _ end] => destruct x
         end.

Ltac stage_keeps :=
  intros; break_matches; cbn [res_state returns_or_raises];
  (split; [exact I|]); unfold keeps, same_setting; now repeat split.

Lemma update_times_keeps s :
  returns_or_raises (update_times s) /\ keeps s (res_state (update_times s)).
Proof. unfold update_times. stage_keeps. Qed.

Lemma update_diff_keeps s :
  returns_or_raises (update_diff s) /\ keeps s (res_state (update_diff s)).
Proof. unfold update_diff. stage_keeps. Qed.

Lemma detect_peak_keeps (x : Z) s :
  returns_or_raises (detect_peak x s) /\
  keeps s (res_state (detect_peak x s)).
Proof. unfold detect_peak. stage_keeps. Qed.

Lemma update_rr_keeps s :
  returns_or_raises (update_rr s) /\ keeps s (res_state (update_rr s)).
Proof. unfold update_rr. stage_keeps. Qed.

Lemma add_zero_to_channels_keeps s :
  returns_or_raises (add_zero_to_channels s) /\
  keeps s (res_state (add_zero_to_channels s)).
Proof. rewrite add_zero_to_channels_cases. stage_keeps. Qed.

Lemma and_then_keeps (s0 : Oximeter D) (r : res (Oximeter D))
    (f : Oximeter D -> res (Oximeter D)) :
  returns_or_raises r /\ keeps s0 (res_state r) ->
  (forall s, returns_or_raises (f s) /\ keeps s (res_state (f s))) ->
  returns_or_raises (r >>= f) /\ keeps s0 (res_state (r >>= f)).
Proof.
  intros [R K] F. destruct r as [s|e s|s]; cbn in *; [|now split|contradiction].
  destruct (F s) as [R' K']. split; [exact R'|].
  exact (keeps_trans _ _ _ K K').
Qed.

Lemma add_paquet_frame s (x w : Z) :
  returns_or_raises (add_paquet s x w) /\
  recording (res_state (add_paquet s x w)) = recording s ++ [x] /\
  same_setting s (res_state (add_paquet s x w)).
Proof.
  assert (K : returns_or_raises (add_paquet s x w) /\
              keeps (store_data x s) (res_state (add_paquet s x w))).
  { unfold add_paquet.
    repeat apply and_then_keeps;
      auto using add_zero_to_channels_keeps, update_times_keeps,
        update_diff_keeps, detect_peak_keeps, update_rr_keeps.
    - intros u. split; [exact I|]. cbn. unfold keeps, same_setting.
      now repeat split.
    - intros u. split; [exact I|]. cbn. unfold close_sample.
      destruct (lag u >=? 0); unfold keeps, same_setting; now repeat split. }
  destruct K as [R [K1 K2]]. split; [exact R|]. split; [exact K1 | exact K2].
Qed.

Ltac stage_commutes :=
  intros; cbn [times sfreq recording threshold diff peaks lag dist channels
               instant_rr triggers set_serial];
  break_matches; reflexivity.

Lemma update_times_set_serial (d : D) s :
  update_times (set_serial d s) = res_map (set_serial d) (update_times s).
Proof. unfold update_times. stage_commutes. Qed.

Lemma update_diff_set_serial (d : D) s :
  update_diff (set_serial d s) = res_map (set_serial d) (update_diff s).
Proof. unfold update_diff. stage_commutes. Qed.

Lemma detect_peak_set_serial (d : D) (x : Z) s :
  detect_peak x (set_serial d s) = res_map (set_serial d) (detect_peak x s).
Proof. unfold detect_peak. stage_commutes. Qed.

Lemma update_rr_set_serial (d : D) s :
  update_rr (set_serial d s) = res_map (set_serial d) (update_rr s).
Proof. unfold update_rr. stage_commutes. Qed.

Lemma add_zero_to_channels_set_serial (d : D) s :
  add_zero_to_channels (set_serial d s) =
  res_map (set_serial d) (add_zero_to_channels s).
Proof. rewrite !add_zero_to_channels_cases. stage_commutes. Qed.

Lemma and_then_res_map {S : Type} (g : S -> S) (r : res S) (f : S -> res S) :
  (forall u, f (g u) = res_map g (f u)) ->
  res_map g r >>= f = res_map g (r >>= f).
Proof. intros F. destruct r; cbn; [apply F | reflexivity | reflexivity]. Qed.

(** The port plays no part in [add_paquet]. *)
Lemma add_paquet_set_serial (d : D) s (x w : Z) :
  add_paquet (set_serial d s) x w = res_map (set_serial d) (add_paquet s x w).
Proof.
  unfold add_paquet.
  change (store_data x (set_serial d s)) with (set_serial d (store_data x s)).
  rewrite add_zero_to_channels_set_serial.
  rewrite !and_then_res_map; [reflexivity | | | | | |];
    auto using update_times_set_serial, update_diff_set_serial,
      detect_peak_set_serial, update_rr_set_serial.
  - intros u. unfold close_sample. cbn [res_map lag set_serial].
    now destruct (lag u >=? 0).
Qed.

Lemma ingests_set_serial (d : D) (calls : list (Z * Z)) : forall s,
  ingests (set_serial d s) calls = res_map (set_serial d) (ingests s calls).
Proof.
  induction calls as [|[x w] calls IH]; intros s; [reflexivity|].
  cbn [ingests]. rewrite add_paquet_set_serial.
  now rewrite and_then_res_map.
Qed.
End Frame.

(** ** The loops on a simulated port *)

Lemma check_sample (p : list Z) :
  check p = true ->
  exists v : Z, py_index p 2 = Some v /\ nth 2 p 0 = v /\ 0 <= v <= 255 /\
                nth_error p 0 = Some 1.
Proof.
  intros C. destruct p as [|p0 [|p1 [|p2 [|p3 [|p4 rest]]]]];
    try (rewrite check_short in C; [discriminate | cbn; lia]).
  rewrite check_five in C.
  rewrite !andb_true_iff, !Z.eqb_eq, !Z.geb_le, !Z.leb_le in C.
  exists p2. cbn. intuition (subst; auto).
Qed.

Lemma sim_read_frame (f more inc : list Z) :
  length f = 5%nat ->
  sim_read 5 (sim_port (f ++ more) inc) = (f, sim_port more inc).
Proof.
  intros L.
  destruct f as [|p0 [|p1 [|p2 [|p3 [|p4 [|p5 f]]]]]]; try discriminate.
  unfold sim_read, sim_port. cbn [buffered incoming].
  change (Z.to_nat 5) with 5%nat. cbn [app length firstn skipn].
  replace (5 - S (S (S (S (S (length more))))))%nat with 0%nat by lia.
  reflexivity.
Qed.

Lemma inWaiting_frame (f more inc : list Z) :
  length f = 5%nat ->
  (inWaiting (sim_port (f ++ more) inc) >=? 5) = true.
Proof.
  intros L. cbn. unfold len. rewrite length_app, L. apply Z.geb_le. lia.
Qed.

(** Draining a buffer that starts with valid frames: each frame costs one
    turn of the loop and one call of [add_paquet] on its third byte. *)
Lemma readInWaiting_valid_prefix (frames : list (list Z)) :
  forall (tail inc : list Z) (s s' : Oximeter SimSerial) (fuel : nat)
         (stop : bool) (out : list string),
  Forall valid_frame frames ->
  serial s = sim_port (concat frames ++ tail) inc ->
  ingests s (frame_calls frames) = Ok s' ->
  readInWaiting (length frames + fuel) s stop out =
  readInWaiting fuel (set_serial (sim_port tail inc) s') stop out.
Proof.
  induction frames as [|f frames IH]; intros tail inc s s' fuel stop out V Es E.
  - cbn in *. injection E as <-. rewrite <- Es.
    now destruct s.
  - inversion V as [|? ? [Lf Cf] V']; subst.
    cbn [frame_calls map ingests] in E.
    destruct (add_paquet s (nth 2 f 0) 1) as [s1| |] eqn:E1; try discriminate.
    cbn [and_then] in E.
    cbn [length Nat.add readInWaiting].
    rewrite Es. cbn [concat]. rewrite <- app_assoc.
    rewrite inWaiting_frame by exact Lf.
    change (read 5 (sim_port (f ++ concat frames ++ tail) inc))
      with (sim_read 5 (sim_port (f ++ concat frames ++ tail) inc)).
    rewrite sim_read_frame by exact Lf. rewrite Cf.
    destruct (check_sample f Cf) as [v [Ev [Nv _]]]. rewrite Ev, <- Nv.
    rewrite add_paquet_set_serial, E1. cbn [res_map].
    rewrite (IH tail inc _ (set_serial (sim_port (concat frames ++ tail) inc) s'));
      [ now destruct s' | exact V' | reflexivity |].
    unfold frame_calls. now rewrite ingests_set_serial, E.
Qed.

Lemma split_fuel (k fuel : nat) : (k < fuel)%nat -> exists m, fuel = (k + S m)%nat.
Proof. intros L. exists (fuel - k - 1)%nat. lia. Qed.

(** X11: on the simulated port, [readInWaiting] with a buffer made of valid
    frames followed by fewer than five bytes makes the calls
    [add_paquet(frame[2])] in order (when these return), prints nothing, and
    leaves the remaining bytes in the buffer. *)
Theorem readInWaiting_drains_valid_frames (frames : list (list Z))
    (rest inc : list Z) (s s' : Oximeter SimSerial) (fuel : nat)
    (stop : bool) (out : list string) :
  Forall valid_frame frames -> (length rest < 5)%nat ->
  serial s = sim_port (concat frames ++ rest) inc ->
  ingests s (frame_calls frames) = Ok s' ->
  (length frames < fuel)%nat ->
  readInWaiting fuel s stop out =
  (out, Ok (set_serial (sim_port rest inc) s')).
Proof.
  intros V L Es E F. destruct (split_fuel _ _ F) as [m ->].
  rewrite (readInWaiting_valid_prefix frames rest inc s s' _ stop out V Es E).
  cbn [readInWaiting serial set_serial].
  replace (inWaiting (sim_port rest inc) >=? 5) with false; [reflexivity|].
  symmetry. cbn. unfold len. rewrite Z.geb_leb. apply Z.leb_gt. lia.
Qed.

Lemma readInWaiting_drains_valid_frames_witness :
  readInWaiting 3
    (new_Oximeter (sim_port (concat [[1; 80; 121; 0; 202]; [1; 81; 122; 0; 204]]
                             ++ [1; 82]) []) 75 None) false [] =
  (@nil string,
   Ok (set_serial (sim_port [1; 82] [])
         (res_state (ingests (new_Oximeter
                                (sim_port (concat [[1; 80; 121; 0; 202];
                                                   [1; 81; 122; 0; 204]]
                                           ++ [1; 82]) []) 75 None)
                       (frame_calls [[1; 80; 121; 0; 202];
                                     [1; 81; 122; 0; 204]]))))).
Proof.
  apply (readInWaiting_drains_valid_frames
           [[1; 80; 121; 0; 202]; [1; 81; 122; 0; 204]] [1; 82] []).
  - repeat constructor.
  - simpl. lia.
  - reflexivity.
  - vm_compute. reflexivity.
  - simpl. lia.
Defined.

(** X12: with [stop] true, an invalid frame after valid ones raises
    [ValueError('Synch error')] without printing; the samples of the valid
    frames are recorded, the invalid frame is consumed and the bytes after
    it stay in the buffer. *)
Theorem readInWaiting_stop_raises_after_valid_frames
    (frames : list (list Z)) (bad more inc : list Z)
    (s s' : Oximeter SimSerial) (fuel : nat) (out : list string) :
  Forall valid_frame frames -> invalid_frame bad ->
  serial s = sim_port (concat frames ++ bad ++ more) inc ->
  ingests s (frame_calls frames) = Ok s' ->
  (length frames < fuel)%nat ->
  readInWaiting fuel s true out =
  (out, Raise (ValueError "Synch error") (set_serial (sim_port more inc) s')).
Proof.
  intros V [Lb Cb] Es E F. destruct (split_fuel _ _ F) as [m ->].
  rewrite (readInWaiting_valid_prefix frames (bad ++ more) inc s s' _ true out
             V Es E).
  cbn [readInWaiting serial set_serial].
  rewrite inWaiting_frame by exact Lb.
  change (read 5 (sim_port (bad ++ more) inc))
    with (sim_read 5 (sim_port (bad ++ more) inc)).
  rewrite sim_read_frame by exact Lb. rewrite Cb. now destruct s'.
Qed.

Lemma readInWaiting_stop_raises_after_valid_frames_witness :
  readInWaiting 2
    (new_Oximeter (sim_port (concat [[1; 80; 121; 0; 202]]
                             ++ [1; 80; 120; 0; 202] ++ [7]) []) 75 None)
    true [] =
  (@nil string,
   Raise (ValueError "Synch error")
     (set_serial (sim_port [7] [])
        (res_state (ingests (new_Oximeter
                               (sim_port (concat [[1; 80; 121; 0; 202]]
                                          ++ [1; 80; 120; 0; 202] ++ [7]) [])
                               75 None)
                      (frame_calls [[1; 80; 121; 0; 202]]))))).
Proof.
  apply (readInWaiting_stop_raises_after_valid_frames
           [[1; 80; 121; 0; 202]] [1; 80; 120; 0; 202] [7] []).
  - repeat constructor.
  - split; reflexivity.
  - reflexivity.
  - vm_compute. reflexivity.
  - simpl. lia.
Defined.

Lemma find_start_reads_incoming (buf f more : list Z) :
  length f = 5%nat ->
  read 5 (reset_input_buffer (sim_port buf (f ++ more))) = (f, sim_port [] more).
Proof.
  intros L.
  destruct f as [|p0 [|p1 [|p2 [|p3 [|p4 [|p5 f]]]]]]; try discriminate.
  reflexivity.
Qed.

(** The search reads the line in blocks of five bytes. *)
Lemma find_start_blocks (bad : list (list Z)) :
  forall (buf good rest : list Z) (fuel : nat),
  Forall invalid_frame bad -> valid_frame good ->
  find_start (length bad + S fuel) (sim_port buf (concat bad ++ good ++ rest)) =
  (true, sim_port [] rest).
Proof.
  induction bad as [|b bad IH]; intros buf good rest fuel B [Lg Cg].
  - cbn [length Nat.add concat app find_start].
    rewrite find_start_reads_incoming by exact Lg. now rewrite Cg.
  - inversion B as [|? ? [Lb Cb] B']; subst.
    cbn [length Nat.add concat find_start]. rewrite <- app_assoc.
    rewrite find_start_reads_incoming by exact Lb. rewrite Cb.
    now apply IH.
Qed.

(** X14: on the simulated port, [setup] drops the buffered bytes and reads
    the line in blocks of five bytes; it returns at the first valid block,
    which it consumes without recording it, with a new object of default
    configuration on the rest of the line. *)
Theorem setup_synchronises_on_blocks (bad : list (list Z))
    (buf good rest : list Z) (s : Oximeter SimSerial) (fuel : nat) :
  Forall invalid_frame bad -> valid_frame good ->
  serial s = sim_port buf (concat bad ++ good ++ rest) ->
  (length bad < fuel)%nat ->
  setup fuel s =
  Ok (set_triggers (triggers s)
        (new_Oximeter (sim_port [] rest) default_sfreq None)).
Proof.
  intros B G Es F. destruct (split_fuel _ _ F) as [m ->].
  unfold setup. cbn [serial __init__ set_triggers new_Oximeter].
  rewrite Es, (find_start_blocks bad buf good rest m B G). reflexivity.
Qed.

Lemma setup_synchronises_on_blocks_witness :
  setup 2 (new_Oximeter
             (sim_port [9; 9; 9]
                (concat [[1; 80; 120; 0; 202]] ++ [1; 80; 121; 0; 202] ++ [5]))
             100 (Some 2)) =
  Ok (set_triggers None (new_Oximeter (sim_port [] [5]) default_sfreq None)).
Proof.
  apply (setup_synchronises_on_blocks [[1; 80; 120; 0; 202]] [9; 9; 9]
           [1; 80; 121; 0; 202] [5]).
  - repeat constructor.
  - split; reflexivity.
  - reflexivity.
  - simpl. lia.
Defined.

Lemma Forall_skipn {A : Type} (P : A -> Prop) (k : nat) (l : list A) :
  Forall P l -> Forall P (skipn k l).
Proof.
  revert l. induction k as [|k IH]; intros l F; [exact F|].
  destruct l as [|a l]; [constructor|]. inversion F; subst. now apply IH.
Qed.

Lemma find_start_no_start_byte (fuel : nat) : forall d : SimSerial,
  Forall (fun b => b <> 1) (incoming d) ->
  exists d', find_start fuel d = (false, d') /\
             Forall (fun b => b <> 1) (incoming d').
Proof.
  induction fuel as [|fuel IH]; intros d F; [now exists d|].
  cbn [find_start].
  change (read 5 (reset_input_buffer d))
    with (firstn 5 (incoming d), sim_port [] (skipn 5 (incoming d))).
  cbv beta iota.
  destruct (check (firstn 5 (incoming d))) eqn:C.
  - exfalso. destruct (check_sample _ C) as [v [_ [_ [_ E]]]].
    destruct (incoming d) as [|b l]; [discriminate|].
    cbn in E. injection E as ->. inversion F. congruence.
  - apply IH. cbn [incoming]. now apply Forall_skipn.
Qed.

(** X15: when no byte to come is the start byte 1, [setup] is still
    searching whatever fuel it is given; the object is already emptied and
    back to the default sampling rate. *)
Theorem setup_waits_without_start_byte (fuel : nat) (s : Oximeter SimSerial) :
  Forall (fun b => b <> 1) (incoming (serial s)) ->
  exists s', setup fuel s = Unfinished s' /\ recording s' = [] /\
             sfreq s' = default_sfreq.
Proof.
  intros F. unfold setup. cbn [serial __init__ set_triggers new_Oximeter].
  destruct (find_start_no_start_byte fuel (serial s) F) as [d' [E _]].
  rewrite E. eexists. split; [reflexivity|]. now split.
Qed.

Lemma setup_waits_without_start_byte_witness :
  exists s', setup 7 (new_Oximeter (sim_port [1; 80; 121; 0; 202] [0; 3; 255])
                        100 None) = Unfinished s' /\
             recording s' = [] /\ sfreq s' = default_sfreq.
Proof.
  apply (setup_waits_without_start_byte 7
           (new_Oximeter (sim_port [1; 80; 121; 0; 202] [0; 3; 255]) 100 None)).
  simpl. repeat constructor; discriminate.
Defined.

(** ** The loops on any device *)

Section Loops.
Context {D : Type} `{Serial D}.

Lemma drained_refl (s : Oximeter D) (out : list string) (r : res (Oximeter D)) :
  recording (res_state r) = recording s -> sfreq (res_state r) = sfreq s ->
  dist (res_state r) = dist s -> channels (res_state r) = channels s ->
  drained s out out r.
Proof.
  intros A B C E. exists [], []. rewrite !app_nil_r. now repeat split.
Qed.

Lemma drained_step (s s1 : Oximeter D) (out : list string) (v : list Z)
    (l : list string) (out' : list string) (r : res (Oximeter D)) :
  recording s1 = recording s ++ v -> Forall (fun v => 0 <= v <= 255) v ->
  sfreq s1 = sfreq s -> dist s1 = dist s -> channels s1 = channels s ->
  drained s1 (out ++ l) out' r -> drained s out out' r.
Proof.
  intros A F B C E [vals [lines [A' [F' [B' [C' [E' O]]]]]]].
  exists (v ++ vals), (l ++ lines).
  rewrite A', A, B', B, C', C, E', E, O, !app_assoc.
  repeat split. now apply Forall_app.
Qed.

(** X13: on any device and however it ends, [readInWaiting] only appends to
    the recording, every appended value lies in 0..255, the sampling rate,
    [dist] and the channels are unchanged, and the printed lines are added
    after those already there. *)
Theorem readInWaiting_only_appends (fuel : nat) : forall (s : Oximeter D)
    (stop : bool) (out : list string),
  drained s out (fst (readInWaiting fuel s stop out))
    (snd (readInWaiting fuel s stop out)).
Proof.
  induction fuel as [|fuel IH]; intros s stop out.
  - now apply drained_refl.
  - cbn [readInWaiting].
    destruct (inWaiting (serial s) >=? 5); [|now apply drained_refl].
    destruct (read 5 (serial s)) as [paquet d'].
    destruct (check paquet) eqn:C.
    + destruct (check_sample _ C) as [v [Ev [_ [Rv _]]]]. rewrite Ev.
      destruct (add_paquet_frame (set_serial d' s) v 1)
        as [_ [A [_ [B [G [E _]]]]]].
      assert (St : forall r, add_paquet (set_serial d' s) v 1 = r ->
                             drained s out out r).
      { intros r <-.
        apply (drained_step s (res_state (add_paquet (set_serial d' s) v 1))
                 out [v] [] out);
          try assumption; [now repeat constructor|].
        rewrite app_nil_r. now apply drained_refl. }
      destruct (add_paquet (set_serial d' s) v 1) as [s'| |] eqn:E1;
        cbn [fst snd]; try (now apply St).
      cbn [res_state] in *.
      apply (drained_step s s' out [v] [] _ _ A);
        [now repeat constructor | exact B | exact G | exact E |].
      rewrite app_nil_r. apply IH.
    + destruct stop; [now apply drained_refl|].
      unfold mark_trigger. cbn [triggers set_serial].
      destruct (triggers s) as [t|].
      * destruct (set_last (-1) t) as [t'|].
        -- cbn [serial set_triggers set_serial].
           destruct (find_start fuel d') as [[|] d''].
           ++ apply (drained_step s
                       (set_serial d'' (set_triggers (Some t') (set_serial d' s)))
                       out [] ["Synch error"%string]);
                [ cbn; now rewrite app_nil_r | apply Forall_nil
                | reflexivity | reflexivity | reflexivity | apply IH].
           ++ cbn [fst snd].
              exists [], ["Synch error"%string]. rewrite app_nil_r.
              now repeat split.
        -- cbn [fst snd]. exists [], ["Synch error"%string].
           rewrite app_nil_r. now repeat split.
      * cbn [fst snd]. exists [], ["Synch error"%string].
        rewrite app_nil_r. now repeat split.
Qed.

Lemma any_last_two_nil : any_last_two [] = false.
Proof. reflexivity. Qed.

(** X16: [waitBeat] returns normally only when [triggers] was assigned
    before the call with a non-zero value among its last two entries; it
    has then recorded exactly one sample, and [triggers] is unchanged.  On
    an object built by the class alone it never returns normally. *)
Theorem waitBeat_returns_on_preset_trigger (fuel : nat) :
  forall (s : Oximeter D) (stim : option (list Z)) (out : list string)
         (out' : list string) (stim' : option (list Z)) (s' : Oximeter D),
  waitBeat fuel s stim out = (out', stim', Ok s') ->
  exists (t : list Z) (v : Z),
    triggers s = Some t /\ any_last_two t = true /\
    recording s' = recording s ++ [v] /\ 0 <= v <= 255 /\
    triggers s' = Some t.
Proof.
  induction fuel as [|fuel IH]; intros s stim out out' stim' s' E;
    [discriminate|].
  cbn [waitBeat] in E.
  destruct (inWaiting (serial s) >=? 5); [|now apply IH in E].
  destruct (read 5 (serial s)) as [paquet d'].
  destruct (check paquet) eqn:C.
  - destruct (check_sample _ C) as [v [Ev [_ [Rv _]]]]. rewrite Ev in E.
    destruct (add_paquet_frame (set_serial d' s) v 1)
      as [_ [A [_ [B [G [Ec Et]]]]]].
    destruct (add_paquet (set_serial d' s) v 1) as [s1| |] eqn:E1;
      try discriminate.
    cbn [res_state set_serial recording triggers] in *.
    destruct (triggers s1) as [t|] eqn:T1; [|discriminate].
    destruct (any_last_two t) eqn:Any.
    + destruct stim as [st|]; [|discriminate].
      destruct (set_last 1 st); [|discriminate].
      injection E as _ _ <-. exists t, v. rewrite <- Et. now repeat split.
    + apply IH in E. destruct E as [t' [v' [T' [Any' _]]]].
      congruence.
  - apply IH in E. exact E.
Qed.
End Loops.

Lemma waitBeat_returns_on_preset_trigger_witness :
  exists (t : list Z) (v : Z),
    triggers (set_triggers (Some [0; 1])
                (new_Oximeter (sim_port [1; 80; 121; 0; 202] []) 75 None))
    = Some t /\
    any_last_two t = true /\
    recording
      (res_state
         (snd (waitBeat 1
                 (set_triggers (Some [0; 1])
                    (new_Oximeter (sim_port [1; 80; 121; 0; 202] []) 75 None))
                 (Some [0]) []))) =
    recording (set_triggers (Some [0; 1])
                 (new_Oximeter (sim_port [1; 80; 121; 0; 202] []) 75 None))
    ++ [v] /\
    0 <= v <= 255 /\
    triggers
      (res_state
         (snd (waitBeat 1
                 (set_triggers (Some [0; 1])
                    (new_Oximeter (sim_port [1; 80; 121; 0; 202] []) 75 None))
                 (Some [0]) []))) = Some t.
Proof.
  apply (waitBeat_returns_on_preset_trigger 1
           (set_triggers (Some [0; 1])
              (new_Oximeter (sim_port [1; 80; 121; 0; 202] []) 75 None))
           (Some [0]) [] [] (Some [1])).
  vm_compute. reflexivity.
Defined.









(** ** The timed loop *)

Lemma read_turn_valid_frame (f more inc : list Z) (s s1 : Oximeter SimSerial)
    (fuel : nat) :
  valid_frame f -> serial s = sim_port (f ++ more) inc ->
  add_paquet s (nth 2 f 0) 1 = Ok s1 ->
  read_turn fuel s = Ok (set_serial (sim_port more inc) s1).
Proof.
  intros [Lf Cf] Es E1. unfold read_turn. rewrite Es.
  rewrite inWaiting_frame by exact Lf.
  change (read 5 (sim_port (f ++ more) inc))
    with (sim_read 5 (sim_port (f ++ more) inc)).
  rewrite sim_read_frame by exact Lf. rewrite Cf.
  destruct (check_sample f Cf) as [v [Ev [Nv _]]]. rewrite Ev, <- Nv.
  now rewrite add_paquet_set_serial, E1.
Qed.

(** While the clock stays within the duration, each turn takes one valid
    frame from the buffer. *)
Lemma read_loop_valid_prefix (frames : list (list Z)) :
  forall (ticks clock : list Q) (tail inc : list Z)
         (s s' : Oximeter SimSerial) (fuel : nat) (tstart duration : Q),
  Forall valid_frame frames -> length ticks = length frames ->
  Forall (fun t => (t - tstart < duration)%Q) ticks ->
  serial s = sim_port (concat frames ++ tail) inc ->
  ingests s (frame_calls frames) = Ok s' ->
  read_loop (ticks ++ clock) fuel tstart duration s =
  read_loop clock fuel tstart duration (set_serial (sim_port tail inc) s').
Proof.
  induction frames as [|f frames IH];
    intros ticks clock tail inc s s' fuel tstart duration V L T Es E.
  - destruct ticks; [|discriminate]. cbn in *. injection E as <-.
    rewrite <- Es. now destruct s.
  - destruct ticks as [|t ticks]; [discriminate|].
    inversion V as [|? ? Vf V']; subst. inversion T as [|? ? Tt T']; subst.
    cbn [frame_calls map ingests] in E.
    destruct (add_paquet s (nth 2 f 0) 1) as [s1| |] eqn:E1; try discriminate.
    cbn [and_then] in E. cbn [app read_loop].
    apply Qltb_true_iff in Tt. rewrite Tt.
    cbn [concat] in Es. rewrite <- app_assoc in Es.
    rewrite (read_turn_valid_frame f _ inc s s1 fuel Vf Es E1). cbn [and_then].
    rewrite (IH ticks clock tail inc _
               (set_serial (sim_port (concat frames ++ tail) inc) s'));
      [ now destruct s' | exact V' | now injection L | exact T' | reflexivity |].
    unfold frame_calls. now rewrite ingests_set_serial, E.
Qed.

(** X17: in [read], each turn of the loop made before the duration has
    elapsed takes one valid frame from the buffer and records its third
    byte; the frames not reached in time stay in the buffer. *)
Theorem read_takes_one_frame_per_turn (frames : list (list Z))
    (ticks later : list Q) (tail inc : list Z) (s s' : Oximeter SimSerial)
    (fuel : nat) (tstart tend duration : Q) :
  Forall valid_frame frames -> length ticks = length frames ->
  Forall (fun t => (t - tstart < duration)%Q) ticks ->
  (duration <= tend - tstart)%Q ->
  serial s = sim_port (concat frames ++ tail) inc ->
  ingests s (frame_calls frames) = Ok s' ->
  Oximeter_read (tstart :: ticks ++ tend :: later) fuel s duration =
  Ok (set_serial (sim_port tail inc) s').
Proof.
  intros V L T X Es E. cbn [Oximeter_read].
  rewrite (read_loop_valid_prefix frames ticks (tend :: later) tail inc s s'
             fuel tstart duration V L T Es E).
  cbn [read_loop]. apply Qltb_false_iff in X. now rewrite X.
Qed.

Lemma read_takes_one_frame_per_turn_witness :
  Oximeter_read (0 :: [1 # 10] ++ (3 # 10) :: [])%Q 1
    (new_Oximeter
       (sim_port (concat [[1; 80; 121; 0; 202]] ++ [1; 81; 122; 0; 204]) [])
       75 None)
    (2 # 10)%Q =
  Ok (set_serial (sim_port [1; 81; 122; 0; 204] [])
        (res_state
           (ingests
              (new_Oximeter
                 (sim_port (concat [[1; 80; 121; 0; 202]]
                            ++ [1; 81; 122; 0; 204]) []) 75 None)
              (frame_calls [[1; 80; 121; 0; 202]])))).
Proof.
  apply (read_takes_one_frame_per_turn [[1; 80; 121; 0; 202]]
           [(1 # 10)%Q] [] [1; 81; 122; 0; 204] []).
  - repeat constructor.
  - reflexivity.
  - repeat constructor.
  - unfold Qle. simpl. lia.
  - reflexivity.
  - vm_compute. reflexivity.
Defined.




(** X1: on any object, [add_paquet] returns or raises; in both cases the
    sample has been appended to the recording, and the port, the sampling
    rate, [dist], the channels and [triggers] are unchanged. *)
Theorem add_paquet_appends_sample {D : Type} (s : Oximeter D) (x w : Z) :
  returns_or_raises (add_paquet s x w) /\
  recording (res_state (add_paquet s x w)) = recording s ++ [x] /\
  same_setting s (res_state (add_paquet s x w)).
Proof. exact (add_paquet_frame s x w). Qed.

(** X10: on any object whose channels dict is not empty, [add_paquet]
    raises [AttributeError] as soon as the sample is stored: the recording
    has grown by the sample and no other series has changed. *)
Theorem add_paquet_raises_with_channels {D : Type} (s : Oximeter D)
    (x w : Z) (c : string * list Z) (chs : list (string * list Z)) :
  channels s = Some (c :: chs) ->
  add_paquet s x w = Raise AttributeError (store_data x s).
Proof.
  intros C. unfold add_paquet. rewrite add_zero_to_channels_cases.
  cbn [channels store_data set_recording]. now rewrite C.
Qed.

Lemma add_paquet_raises_with_channels_witness :
  add_paquet (new_Oximeter idle_port 75 (Some 2)) 120 1 =
  Raise AttributeError (store_data 120 (new_Oximeter idle_port 75 (Some 2))).
Proof.
  apply (add_paquet_raises_with_channels
           (new_Oximeter idle_port 75 (Some 2)) 120 1
           ("Channel_0"%string, [])
           [("Channel_1"%string, []); ("Channel_2"%string, []);
            ("Channel_3"%string, []); ("Channel_4"%string, [])]).
  reflexivity.
Defined.
